(** * Brinqa MCP server: query builders and authenticated request execution

    A shallow embedding of [src/index.ts]: the GraphQL query builders
    ([buildAssetsQuery] ... [buildDataModelsQuery]), the [BrinqaClient]
    class ([authenticate], [getAuthHeaders], [executeGraphQL],
    [connectApiRequest]) and the tool-call handler.

    Conventions of the embedding.
    - A JavaScript string is a [string]; an optional field [x?: T] is an
      [option T], [None] standing for [undefined].
    - A JavaScript number is an integer [Z].  The numbers of this program
      (limits, scores, day counts, millisecond timestamps, token lifetimes)
      are integer valued and far below 2^53, where the arithmetic of doubles
      is exact and [String(n)] is the plain decimal numeral.
    - The remote service is a function from the log of requests sent so far
      to a reply and the time the exchange took; [Date.now()] reads a clock
      that only network exchanges advance. *)

From Stdlib Require Import ZArith List Bool Lia.
From Stdlib Require Import Strings.String Strings.Ascii Numbers.DecimalString.
Import ListNotations.

Local Open Scope Z_scope.
Local Open Scope string_scope.

(** ** JavaScript strings *)

Module JS.

(** The double quote character, which a Rocq literal cannot hold bare. *)
Definition dq : string := String (ascii_of_nat 34) EmptyString.

(** [s.startsWith(p)]. *)
Fixpoint startsWith (s p : string) {struct p} : bool :=
  match p with
  | EmptyString => true
  | String a p' =>
      match s with
      | EmptyString => false
      | String b s' => Ascii.eqb a b && startsWith s' p'
      end
  end.

(** [s.includes(p)]: [p] occurs in [s] as a contiguous substring. *)
Fixpoint includes (s p : string) : bool :=
  match s with
  | EmptyString => startsWith EmptyString p
  | String _ s' => startsWith s p || includes s' p
  end.

(** The character [c] occurs in [s]. *)
Fixpoint occurs (c : ascii) (s : string) : bool :=
  match s with
  | EmptyString => false
  | String a s' => Ascii.eqb a c || occurs c s'
  end.

Fixpoint all_chars (P : ascii -> bool) (s : string) : bool :=
  match s with
  | EmptyString => true
  | String a s' => P a && all_chars P s'
  end.

Fixpoint last_char (s : string) : option ascii :=
  match s with
  | EmptyString => None
  | String a EmptyString => Some a
  | String _ s' => last_char s'
  end.

(** Truthiness of [x?: string]: [undefined] and the empty string are falsy. *)
Definition truthy (o : option string) : bool :=
  match o with
  | Some s => negb (s =? EmptyString)
  | None => false
  end.

(** Truthiness of [x?: number]: [undefined] and [0] are falsy. *)
Definition truthy_num (o : option Z) : bool :=
  match o with
  | Some z => negb (z =? 0)%Z
  | None => false
  end.

(** Truthiness of [x?: boolean]. *)
Definition truthy_bool (o : option bool) : bool :=
  match o with
  | Some b => b
  | None => false
  end.

(** [x !== undefined]. *)
Definition defined {A : Type} (o : option A) : bool :=
  match o with
  | Some _ => true
  | None => false
  end.

(** [String(n)] for an integer-valued number. *)
Definition Number_toString (z : Z) : string :=
  NilZero.string_of_int (Z.to_int z).

(** Template interpolation [${x}] of [x?: string]. *)
Definition interp (o : option string) : string :=
  match o with
  | Some s => s
  | None => "undefined"
  end.

(** Template interpolation [${x}] of [x?: number]. *)
Definition interp_num (o : option Z) : string :=
  match o with
  | Some z => Number_toString z
  | None => "undefined"
  end.

(** [x || d] on numbers. *)
Definition or_num (o : option Z) (d : Z) : Z :=
  match o with
  | Some z => if (z =? 0)%Z then d else z
  | None => d
  end.

(** [x || d] on strings. *)
Definition or_str (o : option string) (d : string) : string :=
  match o with
  | Some s => if s =? EmptyString then d else s
  | None => d
  end.

(** [Math.min(a, b)]. *)
Definition Math_min (a b : Z) : Z := Z.min a b.

(** [l.push(x)], as the array it leaves. *)
Definition push (l : list string) (x : string) : list string := (l ++ [x])%list.

(** [l.join(sep)]. *)
Definition join (l : list string) (sep : string) : string := String.concat sep l.

(** Side conditions of the splitting lemmas below, as decidable tests:
    the needle is not empty and the character at the seam is foreign to it. *)
Definition starts_clear (p r : string) : bool :=
  match p, r with
  | String _ _, String c _ => negb (occurs c p)
  | _, _ => false
  end.

Definition ends_clear (p a : string) : bool :=
  match p, last_char a with
  | String _ _, Some c => negb (occurs c p)
  | _, _ => false
  end.

Definition is_num_char (c : ascii) : bool :=
  let n := nat_of_ascii c in
  (Nat.eqb n 45 || (Nat.leb 48 n && Nat.leb n 57))%bool.

Definition foreign_to_numerals (p : string) : bool :=
  match p with
  | String c _ => negb (is_num_char c)
  | EmptyString => false
  end.

End JS.

Import JS.

(** ** The query builders

    One module per builder; [params] is the builder's parameter object and
    every field is optional.  Template literals are transcribed verbatim,
    line breaks and indentation included. *)

Module Assets.

Record params := {
  asset_type : option string;
  status : option string;
  limit : option Z;
  filter : option string;
  fields : option (list string)
}.

Definition buildAssetsQuery (params : params) : string :=
  let limit := Math_min (or_num (limit params) 100) 1000 in
  let fields :=
    or_str (option_map (fun l => join l "
        ") (fields params))
    "id
        name
        assetType
        status
        criticality
        riskScore
        ipAddress
        hostname
        operatingSystem
        lastSeen
        discoveredAt
        owner
        businessUnit
        environment
        tags" in
  let filters : list string := [] in
  let filters := if truthy (asset_type params) then push filters ("assetType: " ++ dq ++ interp (asset_type params) ++ dq) else filters in
  let filters := if truthy (status params) then push filters ("status: " ++ interp (status params)) else filters in
  let filters := if truthy (filter params) then push filters ("filter: " ++ dq ++ interp (filter params) ++ dq) else filters in
  let filterStr := if (0 <? List.length filters)%nat then "(" ++ join filters ", " ++ ")" else "" in
  "
    query GetAssets {
      assets" ++ filterStr ++ " {
        totalCount
        pageInfo {
          hasNextPage
          endCursor
        }
        nodes(first: " ++ Number_toString limit ++ ") {
          " ++ fields ++ "
        }
      }
    }
  ".

End Assets.

Module Vulnerabilities.

Record params := {
  severity : option string;
  status : option string;
  cve_id : option string;
  limit : option Z;
  filter : option string;
  include_affected_assets : option bool
}.

Definition buildVulnerabilitiesQuery (params : params) : string :=
  let limit := Math_min (or_num (limit params) 100) 1000 in
  let affectedAssetsFields :=
    if truthy_bool (include_affected_assets params)
    then "affectedAssets {
            id
            name
            assetType
          }"
    else "" in
  let filters : list string := [] in
  let filters := if truthy (severity params) then push filters ("severity: " ++ interp (severity params)) else filters in
  let filters := if truthy (status params) then push filters ("status: " ++ interp (status params)) else filters in
  let filters := if truthy (cve_id params) then push filters ("cveId: " ++ dq ++ interp (cve_id params) ++ dq) else filters in
  let filters := if truthy (filter params) then push filters ("filter: " ++ dq ++ interp (filter params) ++ dq) else filters in
  let filterStr := if (0 <? List.length filters)%nat then "(" ++ join filters ", " ++ ")" else "" in
  "
    query GetVulnerabilities {
      vulnerabilities" ++ filterStr ++ " {
        totalCount
        pageInfo {
          hasNextPage
          endCursor
        }
        nodes(first: " ++ Number_toString limit ++ ") {
          id
          cveId
          title
          description
          severity
          cvssScore
          cvssVector
          status
          riskScore
          exploitAvailable
          exploitMaturity
          patchAvailable
          publishedDate
          lastModifiedDate
          firstDiscoveredDate
          affectedAssetCount
          " ++ affectedAssetsFields ++ "
          references
          remediation
        }
      }
    }
  ".

End Vulnerabilities.

Module Findings.

Record params := {
  finding_type : option string;
  status : option string;
  risk_score_min : option Z;
  risk_score_max : option Z;
  limit : option Z;
  age_days : option Z
}.

Definition buildFindingsQuery (params : params) : string :=
  let limit := Math_min (or_num (limit params) 100) 1000 in
  let filters : list string := [] in
  let filters := if truthy (finding_type params) then push filters ("findingType: " ++ dq ++ interp (finding_type params) ++ dq) else filters in
  let filters := if truthy (status params) then push filters ("status: " ++ interp (status params)) else filters in
  let filters := if defined (risk_score_min params) then push filters ("riskScoreMin: " ++ interp_num (risk_score_min params)) else filters in
  let filters := if defined (risk_score_max params) then push filters ("riskScoreMax: " ++ interp_num (risk_score_max params)) else filters in
  let filters := if truthy_num (age_days params) then push filters ("discoveredAfter: " ++ dq ++ "-" ++ interp_num (age_days params) ++ "d" ++ dq) else filters in
  let filterStr := if (0 <? List.length filters)%nat then "(" ++ join filters ", " ++ ")" else "" in
  "
    query GetFindings {
      findings" ++ filterStr ++ " {
        totalCount
        pageInfo {
          hasNextPage
          endCursor
        }
        nodes(first: " ++ Number_toString limit ++ ") {
          id
          findingType
          title
          description
          status
          severity
          riskScore
          baseRiskScore
          overallRiskScore
          discoveredAt
          lastSeenAt
          resolvedAt
          asset {
            id
            name
            assetType
          }
          vulnerability {
            id
            cveId
            title
          }
          assignee
          dueDate
          slaStatus
        }
      }
    }
  ".

End Findings.

Module Tickets.

Record params := {
  status : option string;
  priority : option string;
  assignee : option string;
  sla_status : option string;
  limit : option Z
}.

Definition buildTicketsQuery (params : params) : string :=
  let limit := Math_min (or_num (limit params) 100) 1000 in
  let filters : list string := [] in
  let filters := if truthy (status params) then push filters ("status: " ++ interp (status params)) else filters in
  let filters := if truthy (priority params) then push filters ("priority: " ++ interp (priority params)) else filters in
  let filters := if truthy (assignee params) then push filters ("assignee: " ++ dq ++ interp (assignee params) ++ dq) else filters in
  let filters := if truthy (sla_status params) then push filters ("slaStatus: " ++ interp (sla_status params)) else filters in
  let filterStr := if (0 <? List.length filters)%nat then "(" ++ join filters ", " ++ ")" else "" in
  "
    query GetTickets {
      tickets" ++ filterStr ++ " {
        totalCount
        pageInfo {
          hasNextPage
          endCursor
        }
        nodes(first: " ++ Number_toString limit ++ ") {
          id
          ticketId
          title
          description
          status
          priority
          severity
          assignee
          reporter
          createdAt
          updatedAt
          dueDate
          slaStatus
          slaDueDate
          findingsCount
          affectedAssetsCount
          externalTicketId
          externalTicketUrl
        }
      }
    }
  ".

End Tickets.

Module RiskScores.

Record params := {
  scope : option string;
  entity_id : option string;
  include_factors : option bool;
  include_trends : option bool
}.

(** [params.scope === "ASSET"]. *)
Definition scope_is_asset (params : params) : bool :=
  match scope params with
  | Some s => s =? "ASSET"
  | None => false
  end.

Definition buildRiskScoresQuery (params : params) : string :=
  let factorsFields :=
    if truthy_bool (include_factors params)
    then "riskFactors {
          name
          weight
          score
          description
        }"
    else "" in
  let trendsFields :=
    if truthy_bool (include_trends params)
    then "riskTrends {
          date
          score
          changePercent
        }"
    else "" in
  if scope_is_asset params && truthy (entity_id params)
  then "
      query GetAssetRiskScore {
        asset(id: " ++ dq ++ interp (entity_id params) ++ dq ++ ") {
          id
          name
          riskScore
          baseRiskScore
          overallRiskScore
          " ++ factorsFields ++ "
          " ++ trendsFields ++ "
        }
      }
    "
  else "
    query GetRiskScores {
      riskSummary {
        overallRiskScore
        criticalAssetCount
        highRiskAssetCount
        mediumRiskAssetCount
        lowRiskAssetCount
        totalAssetCount
        openFindingsCount
        criticalFindingsCount
        averageRemediationTime
        " ++ factorsFields ++ "
        " ++ trendsFields ++ "
      }
    }
  ".

End RiskScores.

Module Connectors.

Record params := {
  connector_type : option string;
  status : option string;
  include_sync_history : option bool
}.

Definition buildConnectorsQuery (params : params) : string :=
  let syncHistoryFields :=
    if truthy_bool (include_sync_history params)
    then "syncHistory {
          syncId
          startTime
          endTime
          status
          recordsProcessed
          errorsCount
        }"
    else "" in
  let filters : list string := [] in
  let filters := if truthy (connector_type params) then push filters ("connectorType: " ++ dq ++ interp (connector_type params) ++ dq) else filters in
  let filters := if truthy (status params) then push filters ("status: " ++ interp (status params)) else filters in
  let filterStr := if (0 <? List.length filters)%nat then "(" ++ join filters ", " ++ ")" else "" in
  "
    query GetConnectors {
      connectors" ++ filterStr ++ " {
        id
        name
        connectorType
        status
        lastSyncTime
        lastSyncStatus
        recordsCount
        configuration {
          enabled
          syncSchedule
        }
        " ++ syncHistoryFields ++ "
      }
    }
  ".

End Connectors.

Module Clusters.

Record params := {
  cluster_type : option string;
  limit : option Z
}.

Definition buildClustersQuery (params : params) : string :=
  let limit := Math_min (or_num (limit params) 50) 500 in
  let filters : list string := [] in
  let filters := if truthy (cluster_type params) then push filters ("clusterType: " ++ dq ++ interp (cluster_type params) ++ dq) else filters in
  let filterStr := if (0 <? List.length filters)%nat then "(" ++ join filters ", " ++ ")" else "" in
  "
    query GetClusters {
      clusters" ++ filterStr ++ " {
        nodes(first: " ++ Number_toString limit ++ ") {
          id
          name
          clusterType
          description
          entityCount
          riskScore
          criteria {
            attribute
            operator
            value
          }
          createdAt
          updatedAt
        }
      }
    }
  ".

End Clusters.

Module DataModels.

Record params := {
  model_name : option string;
  include_attributes : option bool;
  include_relationships : option bool
}.

Definition buildDataModelsQuery (params : params) : string :=
  let attributesFields :=
    if truthy_bool (include_attributes params)
    then "attributes {
          name
          type
          description
          required
          indexed
        }"
    else "" in
  let relationshipsFields :=
    if truthy_bool (include_relationships params)
    then "relationships {
          name
          targetModel
          cardinality
          description
        }"
    else "" in
  if truthy (model_name params)
  then "
      query GetDataModel {
        dataModel(name: " ++ dq ++ interp (model_name params) ++ dq ++ ") {
          name
          description
          category
          " ++ attributesFields ++ "
          " ++ relationshipsFields ++ "
        }
      }
    "
  else "
    query GetDataModels {
      dataModels {
        name
        description
        category
        " ++ attributesFields ++ "
        " ++ relationshipsFields ++ "
      }
    }
  ".

End DataModels.

(** ** The client and the tool-call handler *)

Module Client.

(** The environment variables read at start-up; an unset one is [""]. *)
Record Config := {
  BRINQA_API_KEY : string;
  BRINQA_USERNAME : string;
  BRINQA_PASSWORD : string
}.

(** The body of a successful login, as the [AuthResponse] interface
    declares it: the token is a string. *)
Record AuthResponse := {
  access_token : string;
  token_type : string;
  expires_in : Z
}.

(** [errors] holds the [message] of each entry; a payload is kept as the
    JSON text that stands for it.  [data], when present, is an object, as
    GraphQL has it, and so is truthy. *)
Record GraphQLResponse := {
  data : option string;
  errors : option (list string)
}.

Record Headers := {
  Authorization : string;
  Content_Type : string;
  Accept : string;
  X_API_KEY : option string
}.

Record IngestBody := {
  namespace : string;
  dataType : string;
  records : list string
}.

(** What goes over the wire. *)
Inductive request :=
| PostLogin (username password : string)
| PostGraphQL (headers : Headers) (query : option string) (variables : option string)
| ConnectRequest (method url : string) (headers : Headers) (body : option IngestBody).

(** What axios hands back: a response, or an [AxiosError] with the status
    and the [message] of the response body when there is one. *)
Inductive reply (A : Type) :=
| Resolved (body : A)
| AxiosError (status : option Z) (remote_message : option string) (message : string).

Arguments Resolved {A} body.
Arguments AxiosError {A} status remote_message message.

(** The remote service: each endpoint answers from the log of requests sent
    so far (the latest first), with the milliseconds the exchange took. *)
Record Remote := {
  login_reply : list request -> reply AuthResponse * Z;
  graphql_reply : list request -> reply GraphQLResponse * Z;
  connect_reply : list request -> reply string * Z
}.

Record World := {
  now : Z;
  sent : list request
}.

(** The mutable fields of [BrinqaClient]. *)
Record BrinqaClient := {
  accessToken : option string;
  tokenExpiry : Z
}.

Inductive outcome (A : Type) :=
| Return (a : A)
| Throw (msg : string).

Arguments Return {A} a.
Arguments Throw {A} msg.

Record ToolResult := {
  text : string;
  isError : bool
}.

Inductive ToolCall :=
| query_assets (params : Assets.params)
| query_vulnerabilities (params : Vulnerabilities.params)
| query_findings (params : Findings.params)
| get_risk_scores (params : RiskScores.params)
| query_tickets (params : Tickets.params)
| get_connectors (params : Connectors.params)
| execute_graphql (query : option string) (variables : option string)
| get_clusters (params : Clusters.params)
| connect_ingest_data (namespace data_type : string) (records : list string)
| get_data_models (params : DataModels.params)
| unknown_tool (name : string).

Definition send (r : request) (w : World) : World :=
  {| now := now w; sent := r :: sent w |}.

Definition elapse (dt : Z) (w : World) : World :=
  {| now := now w + dt; sent := sent w |}.

(** [error.response?.data?.message || error.message]. *)
Definition error_message (remote_message : option string) (message : string) : string :=
  or_str remote_message message.

(** [`Bearer ${this.accessToken}`]; a [null] token prints as [null]. *)
Definition bearer (token : option string) : string :=
  "Bearer " ++ match token with Some t => t | None => "null" end.

Definition newClient : BrinqaClient :=
  {| accessToken := None; tokenExpiry := 0 |}.

Section WithEnvironment.

Variable cfg : Config.
Variable remote : Remote.

Definition authenticate (c : BrinqaClient) (w : World)
  : outcome unit * BrinqaClient * World :=
  if truthy (accessToken c) && (now w <? tokenExpiry c)%Z then
    (Return tt, c, w)
  else if negb (BRINQA_API_KEY cfg =? "") then
    (Return tt,
     {| accessToken := Some (BRINQA_API_KEY cfg);
        tokenExpiry := now w + 24 * 60 * 60 * 1000 |},
     w)
  else if (BRINQA_USERNAME cfg =? "") || (BRINQA_PASSWORD cfg =? "") then
    (Throw "Authentication credentials not configured. Set BRINQA_USERNAME and BRINQA_PASSWORD or BRINQA_API_KEY.",
     c, w)
  else
    let w1 := send (PostLogin (BRINQA_USERNAME cfg) (BRINQA_PASSWORD cfg)) w in
    match login_reply remote (sent w1) with
    | (Resolved response, dt) =>
        let w2 := elapse dt w1 in
        (Return tt,
         {| accessToken := Some (access_token response);
            tokenExpiry := now w2 + (expires_in response - 300) * 1000 |},
         w2)
    | (AxiosError _ remote_message message, dt) =>
        (Throw ("Authentication failed: " ++ error_message remote_message message),
         c, elapse dt w1)
    end.

Definition getAuthHeaders (c : BrinqaClient) (w : World)
  : outcome Headers * BrinqaClient * World :=
  match authenticate c w with
  | (Throw e, c1, w1) => (Throw e, c1, w1)
  | (Return _, c1, w1) =>
      (Return {| Authorization := bearer (accessToken c1);
                 Content_Type := "application/json";
                 Accept := "application/json";
                 X_API_KEY := None |},
       c1, w1)
  end.

(** [fuel] bounds the depth of the recursive call of the 401 branch;
    [None] is a call that has not returned within it. *)
Fixpoint executeGraphQL (fuel : nat) (query variables : option string)
    (c : BrinqaClient) (w : World)
  : option (outcome string * BrinqaClient * World) :=
  match fuel with
  | O => None
  | S fuel' =>
      match getAuthHeaders c w with
      | (Throw e, c1, w1) => Some (Throw e, c1, w1)
      | (Return headers, c1, w1) =>
          let w2 := send (PostGraphQL headers query variables) w1 in
          match graphql_reply remote (sent w2) with
          | (Resolved response, dt) =>
              let w3 := elapse dt w2 in
              match errors response with
              | Some (e :: es) =>
                  Some (Throw ("GraphQL errors: " ++ join (e :: es) "; "), c1, w3)
              | _ =>
                  match data response with
                  | None => Some (Throw "No data returned from GraphQL query", c1, w3)
                  | Some d => Some (Return d, c1, w3)
                  end
              end
          | (AxiosError status remote_message message, dt) =>
              let w3 := elapse dt w2 in
              match status with
              | Some 401 =>
                  executeGraphQL fuel' query variables
                    {| accessToken := None; tokenExpiry := 0 |} w3
              | _ =>
                  Some (Throw ("GraphQL request failed: "
                               ++ error_message remote_message message), c1, w3)
              end
          end
      end
  end.

Definition connectApiRequest (method endpoint : string) (body : option IngestBody)
    (c : BrinqaClient) (w : World)
  : outcome string * BrinqaClient * World :=
  match getAuthHeaders c w with
  | (Throw e, c1, w1) => (Throw e, c1, w1)
  | (Return headers, c1, w1) =>
      let headers :=
        if negb (BRINQA_API_KEY cfg =? "")
        then {| Authorization := Authorization headers;
                Content_Type := Content_Type headers;
                Accept := Accept headers;
                X_API_KEY := Some (BRINQA_API_KEY cfg) |}
        else headers in
      let w2 := send (ConnectRequest method ("/connect" ++ endpoint) headers body) w1 in
      match connect_reply remote (sent w2) with
      | (Resolved response, dt) => (Return response, c1, elapse dt w2)
      | (AxiosError _ remote_message message, dt) =>
          (Throw ("Brinqa Connect API request failed: "
                  ++ error_message remote_message message), c1, elapse dt w2)
      end
  end.

(** The [CallToolRequestSchema] handler: the [switch] on the tool name,
    then the rendering of the result or of the error caught. *)
Definition dispatch (fuel : nat) (call : ToolCall) (c : BrinqaClient) (w : World)
  : option (outcome string * BrinqaClient * World) :=
  match call with
  | query_assets params =>
      executeGraphQL fuel (Some (Assets.buildAssetsQuery params)) None c w
  | query_vulnerabilities params =>
      executeGraphQL fuel (Some (Vulnerabilities.buildVulnerabilitiesQuery params)) None c w
  | query_findings params =>
      executeGraphQL fuel (Some (Findings.buildFindingsQuery params)) None c w
  | get_risk_scores params =>
      executeGraphQL fuel (Some (RiskScores.buildRiskScoresQuery params)) None c w
  | query_tickets params =>
      executeGraphQL fuel (Some (Tickets.buildTicketsQuery params)) None c w
  | get_connectors params =>
      executeGraphQL fuel (Some (Connectors.buildConnectorsQuery params)) None c w
  | execute_graphql query variables =>
      executeGraphQL fuel query variables c w
  | get_clusters params =>
      executeGraphQL fuel (Some (Clusters.buildClustersQuery params)) None c w
  | connect_ingest_data ns data_type recs =>
      Some (connectApiRequest "POST" "/ingest"
              (Some {| namespace := ns; dataType := data_type; records := recs |}) c w)
  | get_data_models params =>
      executeGraphQL fuel (Some (DataModels.buildDataModelsQuery params)) None c w
  | unknown_tool name =>
      Some (Throw ("Unknown tool: " ++ name), c, w)
  end.

Definition callTool (fuel : nat) (call : ToolCall) (c : BrinqaClient) (w : World)
  : option (ToolResult * BrinqaClient * World) :=
  match dispatch fuel call c w with
  | None => None
  | Some (Return result, c1, w1) =>
      Some ({| text := result; isError := false |}, c1, w1)
  | Some (Throw errorMessage, c1, w1) =>
      Some ({| text := "Error: " ++ errorMessage; isError := true |}, c1, w1)
  end.

End WithEnvironment.

(** The requests of a log that reached the GraphQL endpoint, and those that
    reached the login endpoint. *)
Definition is_graphql (r : request) : bool :=
  match r with PostGraphQL _ _ _ => true | _ => false end.

Definition is_login (r : request) : bool :=
  match r with PostLogin _ _ => true | _ => false end.

Definition graphql_posts (w : World) : nat :=
  List.length (List.filter is_graphql (sent w)).

Definition login_posts (w : World) : nat :=
  List.length (List.filter is_login (sent w)).

End Client.

(** ** Notions used in the statements *)

Import Client.

(** A session exists and has not reached its expiry: the test at the head of
    [authenticate]. *)
Definition session_valid (c : BrinqaClient) (w : World) : bool :=
  truthy (accessToken c) && (now w <? tokenExpiry c)%Z.

(** Durations in the unit of [Date.now()], the millisecond. *)
Definition seconds (s : Z) : Z := s * 1000.
Definition hours (h : Z) : Z := seconds (h * 3600).

Definition headers_of_token (c : BrinqaClient) : Headers :=
  {| Authorization := bearer (accessToken c);
     Content_Type := "application/json";
     Accept := "application/json";
     X_API_KEY := None |}.

Definition headers_of (token : string) : Headers :=
  {| Authorization := "Bearer " ++ token;
     Content_Type := "application/json";
     Accept := "application/json";
     X_API_KEY := None |}.

(** Sample environments: one with a static API key, one with a
    username and password. *)
Definition cfg_api_key : Config :=
  {| BRINQA_API_KEY := "secret-key"; BRINQA_USERNAME := ""; BRINQA_PASSWORD := "" |}.

Definition cfg_password : Config :=
  {| BRINQA_API_KEY := ""; BRINQA_USERNAME := "analyst"; BRINQA_PASSWORD := "hunter2" |}.

Definition login_ok : reply AuthResponse * Z :=
  (Resolved {| access_token := "jwt"; token_type := "Bearer"; expires_in := 86400 |}, 40).

Definition graphql_ok : reply GraphQLResponse * Z :=
  (Resolved {| data := Some "{}"; errors := None |}, 25).

Definition unauthorized {A : Type} : reply A * Z :=
  (AxiosError (Some 401) None "Request failed with status code 401", 25).

(** A service that answers every request successfully. *)
Definition remote_ok : Remote :=
  {| login_reply := fun _ => login_ok;
     graphql_reply := fun _ => graphql_ok;
     connect_reply := fun _ => (Resolved "{}", 25) |}.

(** A service whose GraphQL endpoint answers 401 to the first [n] posts it
    receives and succeeds from then on. *)
Definition remote_unauthorized_first (n : nat) : Remote :=
  {| login_reply := fun _ => login_ok;
     graphql_reply := fun log =>
       if (List.length (List.filter is_graphql log) <=? n)%nat
       then unauthorized else graphql_ok;
     connect_reply := fun _ => (Resolved "{}", 25) |}.

(** A service whose GraphQL endpoint answers 401 to every post. *)
Definition remote_always_unauthorized : Remote :=
  {| login_reply := fun _ => login_ok;
     graphql_reply := fun _ => unauthorized;
     connect_reply := fun _ => (Resolved "{}", 25) |}.

Definition world0 : World := {| now := 1700000000000; sent := [] |}.

(** A caller-supplied value that carries every sequence the denylist names:
    the closing-delimiter pattern, the clause opener of a mutation and the
    reflection marker. *)
Definition injected : string := "}} mutation { __typename".

Definition assets_with_filter (f : string) : Assets.params :=
  {| Assets.asset_type := None; Assets.status := None; Assets.limit := None;
     Assets.filter := Some f; Assets.fields := None |}.

(** The two shapes of a risk-score document, told apart by how the document
    opens: the lookup of one asset by [id], and the organization summary. *)
Definition single_entity_shape (doc id : string) : bool :=
  startsWith doc ("
      query GetAssetRiskScore {
        asset(id: " ++ dq ++ id ++ dq ++ ") {").

Definition organization_summary_shape (doc : string) : bool :=
  startsWith doc "
    query GetRiskScores {
      riskSummary {".

(** The result-count argument as it stands in a document. *)
Definition first_argument (n : Z) : string :=
  "nodes(first: " ++ Number_toString n ++ ")".

(** The limit a builder is to use, in the words of the amended claim C5:
    the default when none is supplied or when 0 is, else the smaller of the
    supplied limit and the ceiling. *)
Definition effective_limit (supplied : option Z) (default ceiling : Z) : Z :=
  match supplied with
  | None => default
  | Some l => if (l =? 0)%Z then default else Z.min l ceiling
  end.

(** Sample risk-score queries: one asset by its identifier, and no
    parameter at all. *)
Definition risk_of_host : RiskScores.params :=
  {| RiskScores.scope := Some "ASSET"; RiskScores.entity_id := Some "host-1";
     RiskScores.include_factors := None; RiskScores.include_trends := None |}.

Definition risk_of_organization : RiskScores.params :=
  {| RiskScores.scope := None; RiskScores.entity_id := None;
     RiskScores.include_factors := None; RiskScores.include_trends := None |}.

Definition assets_with_limit (l : option Z) : Assets.params :=
  {| Assets.asset_type := None; Assets.status := None; Assets.limit := l;
     Assets.filter := None; Assets.fields := None |}.

(** A caller-supplied optional string that does not hold the needle. *)
Definition free_of (needle : string) (o : option string) : Prop :=
  forall v, o = Some v -> includes v needle = false.

(** A needle with none of the characters the builders put around
    interpolated values: parentheses, comma and space. *)
Definition clear_of_punctuation (p : string) : bool :=
  match p with
  | EmptyString => false
  | _ => negb (occurs "(" p) && negb (occurs ")" p)
         && negb (occurs "," p) && negb (occurs " " p)
  end.

(** A needle with no digit and no minus sign. *)
Definition clear_of_numerals (p : string) : bool :=
  match p with
  | EmptyString => false
  | _ => all_chars (fun c => negb (is_num_char c)) p
  end.

(** The nested sub-selection blocks, as the builders write them. *)
Definition affectedAssets_block : string :=
  "affectedAssets {
            id
            name
            assetType
          }".

Definition riskFactors_block : string :=
  "riskFactors {
          name
          weight
          score
          description
        }".

Definition riskTrends_block : string :=
  "riskTrends {
          date
          score
          changePercent
        }".

Definition syncHistory_block : string :=
  "syncHistory {
          syncId
          startTime
          endTime
          status
          recordsProcessed
          errorsCount
        }".

Definition attributes_block : string :=
  "attributes {
          name
          type
          description
          required
          indexed
        }".

Definition relationships_block : string :=
  "relationships {
          name
          targetModel
          cardinality
          description
        }".

(** A nested block follows its flag: with the flag [true] the block stands
    in the document; with the flag unset or [false] the block's field name
    is nowhere in the document text, as long as no caller-supplied string
    interpolated into the document holds that name itself. *)
Definition block_follows_flag (doc : string) (flag : option bool)
    (block name : string) (values : list (option string)) : Prop :=
  (flag = Some true -> includes doc block = true)
  /\ (flag <> Some true ->
      Forall (free_of name) values -> includes doc name = false).

(** A filter clause follows its field: under [present] the clause stands in
    the document; under [absent] the clause's key (the field name of the
    remote schema with its colon) is nowhere in the document text, as long
    as no caller-supplied string interpolated into the document holds it. *)
Definition clause_follows (doc clause key : string) (present absent : Prop)
    (values : list (option string)) : Prop :=
  (present -> includes doc clause = true)
  /\ (absent -> Forall (free_of key) values -> includes doc key = false).

(** The caller's field selection of an asset query, as optional strings. *)
Definition selected_fields (p : Assets.params) : list (option string) :=
  match Assets.fields p with
  | Some l => List.map Some l
  | None => []
  end.

(** A risk-score query that asks for the trend block. *)
Definition vulnerable_hosts_risk : RiskScores.params :=
  {| RiskScores.scope := Some "ORGANIZATION"; RiskScores.entity_id := None;
     RiskScores.include_factors := None; RiskScores.include_trends := Some true |}.

(** Sample queries with defined but falsy fields: findings with both a
    minimum score and an age of 0, and assets of the empty type. *)
Definition findings_at_zero : Findings.params :=
  {| Findings.finding_type := None; Findings.status := None;
     Findings.risk_score_min := Some 0; Findings.risk_score_max := None;
     Findings.limit := None; Findings.age_days := Some 0 |}.

Definition assets_of_empty_type : Assets.params :=
  {| Assets.asset_type := Some ""; Assets.status := None; Assets.limit := None;
     Assets.filter := None; Assets.fields := None |}.

Definition clusters_with_limit (l : option Z) : Clusters.params :=
  {| Clusters.cluster_type := None; Clusters.limit := l |}.

(** [baseUrl.replace(/\/$/, "")] of the [BrinqaClient] constructor: the
    pattern matches a slash at the very end of the string, once. *)
Fixpoint constructor_baseUrl (baseUrl : string) : string :=
  match baseUrl with
  | EmptyString => EmptyString
  | String c rest =>
      match rest with
      | EmptyString => if (c =? "/")%char then EmptyString else baseUrl
      | String _ _ => String c (constructor_baseUrl rest)
      end
  end.

(** The query text and variables a tool call hands to [executeGraphQL];
    [None] for the calls that do not go to the GraphQL endpoint. *)
Definition graphql_document (call : ToolCall) : option (option string * option string) :=
  match call with
  | query_assets params => Some (Some (Assets.buildAssetsQuery params), None)
  | query_vulnerabilities params =>
      Some (Some (Vulnerabilities.buildVulnerabilitiesQuery params), None)
  | query_findings params => Some (Some (Findings.buildFindingsQuery params), None)
  | get_risk_scores params => Some (Some (RiskScores.buildRiskScoresQuery params), None)
  | query_tickets params => Some (Some (Tickets.buildTicketsQuery params), None)
  | get_connectors params => Some (Some (Connectors.buildConnectorsQuery params), None)
  | execute_graphql query variables => Some (query, variables)
  | get_clusters params => Some (Some (Clusters.buildClustersQuery params), None)
  | get_data_models params => Some (Some (DataModels.buildDataModelsQuery params), None)
  | connect_ingest_data _ _ _ => None
  | unknown_tool _ => None
  end.

(** The two shapes of a data-model document: one model by name, and the
    list of all models. *)
Definition single_model_shape (doc name : string) : bool :=
  startsWith doc ("
      query GetDataModel {
        dataModel(name: " ++ dq ++ name ++ dq ++ ") {").

Definition all_models_shape (doc : string) : bool :=
  startsWith doc "
    query GetDataModels {
      dataModels {".

(** How a document with an argument list opens: the operation, the
    resource, and then either the list or the selection set. *)
Definition operation_head (operation resource : string) : string :=
  "
    query " ++ operation ++ " {
      " ++ resource.

(** A risk-score query for an application, a scope the tool schema offers. *)
Definition risk_of_application : RiskScores.params :=
  {| RiskScores.scope := Some "APPLICATION"; RiskScores.entity_id := Some "app-7";
     RiskScores.include_factors := Some true; RiskScores.include_trends := None |}.

(** A service whose login endpoint refuses the credentials. *)
Definition remote_login_refused : Remote :=
  {| login_reply := fun _ =>
       (AxiosError (Some 403) (Some "Invalid credentials")
          "Request failed with status code 403", 30);
     graphql_reply := fun _ => graphql_ok;
     connect_reply := fun _ => (Resolved "{}", 25) |}.

(** A service that answers with the given GraphQL reply and the given
    Connect reply, whatever the request. *)
Definition remote_answering (g : reply GraphQLResponse) (k : reply string) : Remote :=
  {| login_reply := fun _ => login_ok;
     graphql_reply := fun _ => (g, 25);
     connect_reply := fun _ => (k, 25) |}.

(** A service whose login hands out a token that lives [lifetime] seconds. *)
Definition remote_with_lifetime (lifetime : Z) : Remote :=
  {| login_reply := fun _ =>
       (Resolved {| access_token := "jwt"; token_type := "Bearer";
                    expires_in := lifetime |}, 40);
     graphql_reply := fun _ => graphql_ok;
     connect_reply := fun _ => (Resolved "{}", 25) |}.

Definition tickets_by_status : Tickets.params :=
  {| Tickets.status := Some "OPEN"; Tickets.priority := None;
     Tickets.assignee := None; Tickets.sla_status := None; Tickets.limit := None |}.

(** The separator [buildAssetsQuery] joins the caller's fields with. *)
Definition field_separator : string := "
        ".

(** [off] is [on] with one occurrence of [block] taken out. *)
Definition without_block (on off block : string) : Prop :=
  exists pre post, on = pre ++ block ++ post /\ off = pre ++ post.

(** A builder, as a function [build] of one inclusion flag with its other
    parameters fixed, writes the nested block exactly with the flag: with
    the flag [true] the block stands in the document; for any other flag
    the document is the one for [true] with the block taken out, so that
    nothing is written in the block's place; and then the block's field name
    is nowhere in the document text, as long as no caller-supplied string
    interpolated into the document holds that name. *)
Definition block_written_with_flag (build : option bool -> string)
    (flag : option bool) (block name : string)
    (values : list (option string)) : Prop :=
  (flag = Some true -> includes (build flag) block = true)
  /\ (forall f, f <> Some true -> without_block (build (Some true)) (build f) block)
  /\ (flag <> Some true ->
      Forall (free_of name) values -> includes (build flag) name = false).

(** ** Facts on substring search *)

Section StringFacts.

Lemma startsWith_app_sep (p a b : string) (c : ascii) :
  occurs c p = false ->
  startsWith (a ++ String c b) p = startsWith a p.
Proof.
  revert a. induction p as [|x p IH]; intros a Hc.
  - destruct a; reflexivity.
  - simpl in Hc. apply orb_false_iff in Hc as [Hx Hp].
    destruct a as [|y a]; simpl.
    + rewrite Hx. reflexivity.
    + rewrite (IH a Hp). reflexivity.
Qed.

Lemma includes_app_sep (p a b : string) (c : ascii) :
  occurs c p = false ->
  includes (a ++ String c b) p = includes a p || includes b p.
Proof.
  intros Hc. induction a as [|y a IH].
  - change (EmptyString ++ String c b) with (String c b).
    cbn [includes].
    replace (startsWith (String c b) p) with (startsWith EmptyString p).
    + reflexivity.
    + symmetry. apply (startsWith_app_sep p EmptyString b c Hc).
  - change (String y a ++ String c b) with (String y (a ++ String c b)).
    cbn [includes]. rewrite IH.
    change (String y (a ++ String c b)) with (String y a ++ String c b).
    rewrite (startsWith_app_sep p (String y a) b c Hc).
    now rewrite orb_assoc.
Qed.

Lemma includes_empty_needle (s : string) : includes s EmptyString = true.
Proof. destruct s; reflexivity. Qed.

Lemma last_char_split (a : string) (c : ascii) :
  last_char a = Some c -> exists a', a = a' ++ String c EmptyString.
Proof.
  induction a as [|x a IH]; [discriminate|].
  destruct a as [|y a].
  - intros [= ->]. now exists EmptyString.
  - intros H. destruct (IH H) as [a' E]. exists (String x a').
    simpl. now rewrite <- E.
Qed.

Lemma append_assoc (a b c : string) : (a ++ b) ++ c = a ++ (b ++ c).
Proof. induction a; simpl; congruence. Qed.

Lemma append_empty_r (a : string) : a ++ EmptyString = a.
Proof. induction a; simpl; congruence. Qed.

(** Splitting a search at a seam whose right character is foreign to the
    needle. *)
Lemma includes_app_l_clear (p a r : string) :
  starts_clear p r = true ->
  includes (a ++ r) p = includes a p || includes r p.
Proof.
  unfold starts_clear. destruct p as [|x p]; [discriminate|].
  destruct r as [|c r]; [discriminate|].
  intros H. apply negb_true_iff in H.
  rewrite (includes_app_sep _ a r c H).
  cbn [includes].
  pose proof (startsWith_app_sep (String x p) EmptyString r c H) as E.
  change (EmptyString ++ String c r) with (String c r) in E.
  rewrite E. reflexivity.
Qed.

(** Splitting a search at a seam whose left character is foreign to the
    needle. *)
Lemma includes_app_r_clear (p a r : string) :
  ends_clear p a = true ->
  includes (a ++ r) p = includes a p || includes r p.
Proof.
  unfold ends_clear. destruct p as [|x p]; [discriminate|].
  destruct (last_char a) as [c|] eqn:L; [|discriminate].
  intros H. apply negb_true_iff in H.
  destruct (last_char_split a c L) as [a' ->].
  rewrite append_assoc.
  change (String c EmptyString ++ r) with (String c r).
  rewrite !(includes_app_sep _ a' _ c H).
  cbn [includes startsWith]. rewrite orb_false_r. reflexivity.
Qed.

Lemma includes_app_left (a b p : string) :
  includes a p = true -> includes (a ++ b) p = true.
Proof.
  assert (SW : forall q s t, startsWith s q = true -> startsWith (s ++ t) q = true).
  { induction q as [|x q IH]; intros s t H; [reflexivity|].
    destruct s as [|y s]; [discriminate|]. simpl in *.
    apply andb_true_iff in H as [H1 H2].
    rewrite H1. simpl. now apply IH. }
  induction a as [|y a IH]; intros H.
  - simpl in H. destruct p; [apply includes_empty_needle | discriminate].
  - change (String y a ++ b) with (String y (a ++ b)).
    cbn [includes] in *. apply orb_true_iff in H as [H|H].
    + change (String y (a ++ b)) with (String y a ++ b).
      rewrite (SW _ _ _ H). reflexivity.
    + rewrite (IH H). apply orb_true_r.
Qed.

Lemma includes_app_right (a b p : string) :
  includes b p = true -> includes (a ++ b) p = true.
Proof.
  intros H. induction a as [|y a IH]; [exact H|].
  change (String y a ++ b) with (String y (a ++ b)).
  cbn [includes]. rewrite IH. apply orb_true_r.
Qed.

Lemma includes_self_prefix (p r : string) : includes (p ++ r) p = true.
Proof.
  assert (SW : forall q t, startsWith (q ++ t) q = true).
  { induction q as [|x q IH]; intros t; [reflexivity|].
    simpl. rewrite Ascii.eqb_refl. apply IH. }
  destruct p as [|x p]; [apply includes_empty_needle|].
  change (String x p ++ r) with (String x (p ++ r)).
  cbn [includes].
  change (String x (p ++ r)) with (String x p ++ r).
  now rewrite SW.
Qed.

(** A string none of whose characters is the needle's first cannot hold it. *)
Lemma includes_no_first (s p : string) (c : ascii) (P : ascii -> bool) :
  P c = false -> all_chars P s = true ->
  includes s (String c p) = false.
Proof.
  intros Hc. induction s as [|y s IH]; intros H; [reflexivity|].
  simpl in H. apply andb_true_iff in H as [Hy Hs].
  cbn [includes startsWith]. rewrite (IH Hs), orb_false_r.
  destruct (Ascii.eqb_spec c y) as [->|_]; [congruence|reflexivity].
Qed.

Lemma uint_chars (d : Decimal.uint) :
  all_chars is_num_char (NilEmpty.string_of_uint d) = true.
Proof. induction d; simpl; auto. Qed.

Lemma Number_toString_chars (z : Z) :
  all_chars is_num_char (Number_toString z) = true.
Proof.
  assert (U : forall d, all_chars is_num_char (NilZero.string_of_uint d) = true).
  { intros d. unfold NilZero.string_of_uint.
    destruct d; try reflexivity; apply uint_chars. }
  unfold Number_toString, NilZero.string_of_int.
  destruct (Z.to_int z) as [d|d]; [apply U|].
  cbn [all_chars]. rewrite U. reflexivity.
Qed.

(** A decimal numeral holds no needle that starts with a letter. *)
Lemma includes_numeral (z : Z) (p : string) :
  foreign_to_numerals p = true -> includes (Number_toString z) p = false.
Proof.
  destruct p as [|c p]; [discriminate|]. simpl. intros H.
  apply negb_true_iff in H.
  exact (includes_no_first _ p c is_num_char H (Number_toString_chars z)).
Qed.

End StringFacts.

(** ** The session manager *)

Lemma eqb_empty_false (s : string) : s <> "" -> (s =? "") = false.
Proof. intros H. now apply String.eqb_neq. Qed.

Lemma authenticate_valid cfg remote c w :
  session_valid c w = true -> authenticate cfg remote c w = (Return tt, c, w).
Proof.
  unfold session_valid, authenticate. intros ->. reflexivity.
Qed.

(** C4: when no valid session is held, a configured API key becomes the
    credential with expiry 24 hours after now; without a key, a login that
    resolves with a lifetime of [expires_in] seconds yields its token, with
    expiry [expires_in - 300] seconds after the time the reply arrived. *)
Theorem authenticate_establishes_session cfg remote c w :
  session_valid c w = false ->
  (BRINQA_API_KEY cfg <> "" ->
   authenticate cfg remote c w =
     (Return tt,
      {| accessToken := Some (BRINQA_API_KEY cfg);
         tokenExpiry := now w + hours 24 |},
      w))
  /\
  (BRINQA_API_KEY cfg = "" ->
   BRINQA_USERNAME cfg <> "" -> BRINQA_PASSWORD cfg <> "" ->
   forall response dt,
     login_reply remote
       (PostLogin (BRINQA_USERNAME cfg) (BRINQA_PASSWORD cfg) :: sent w)
       = (Resolved response, dt) ->
     exists w',
       authenticate cfg remote c w =
         (Return tt,
          {| accessToken := Some (access_token response);
             tokenExpiry := now w' + seconds (expires_in response - 300) |},
          w')
       /\ now w' = now w + dt
       /\ login_posts w' = S (login_posts w)).
Proof.
  intros Hstale. unfold session_valid in Hstale. split.
  - intros Hkey. unfold authenticate. rewrite Hstale.
    rewrite (eqb_empty_false _ Hkey). reflexivity.
  - intros Hkey Hu Hp response dt Hreply.
    unfold authenticate. rewrite Hstale, Hkey.
    rewrite (eqb_empty_false _ Hu), (eqb_empty_false _ Hp).
    cbn [negb orb String.eqb send sent]. rewrite Hreply.
    eexists. split; [reflexivity|]. split; reflexivity.
Qed.

(** C6: with a session whose expiry lies ahead, [getAuthHeaders] answers
    from the stored credential, leaves client and request log untouched, and
    does so again at any later instant still before the expiry. *)
Theorem getAuthHeaders_reuses_session cfg remote c w tok :
  accessToken c = Some tok -> tok <> "" -> now w < tokenExpiry c ->
  getAuthHeaders cfg remote c w = (Return (headers_of tok), c, w)
  /\ forall w2,
       sent w2 = sent w -> now w2 < tokenExpiry c ->
       getAuthHeaders cfg remote c w2 = (Return (headers_of tok), c, w2)
       /\ login_posts w2 = login_posts w.
Proof.
  intros Htok Hne Hnow.
  assert (V : forall w0, now w0 < tokenExpiry c -> session_valid c w0 = true).
  { intros w0 H0. unfold session_valid. rewrite Htok. cbn [truthy].
    rewrite (eqb_empty_false _ Hne). apply Z.ltb_lt in H0. now rewrite H0. }
  assert (G : forall w0, now w0 < tokenExpiry c ->
                getAuthHeaders cfg remote c w0 = (Return (headers_of tok), c, w0)).
  { intros w0 H0. unfold getAuthHeaders.
    rewrite (authenticate_valid _ _ _ _ (V w0 H0)).
    unfold headers_of, bearer. now rewrite Htok. }
  split; [now apply G|].
  intros w2 Hsent H2. split; [now apply G|].
  unfold login_posts. now rewrite Hsent.
Qed.

Lemma authenticate_establishes_session_witness :
  authenticate cfg_api_key remote_ok newClient world0 =
    (Return tt,
     {| accessToken := Some "secret-key"; tokenExpiry := 1700000000000 + hours 24 |},
     world0)
  /\ exists w',
       authenticate cfg_password remote_ok newClient world0 =
         (Return tt,
          {| accessToken := Some "jwt";
             tokenExpiry := now w' + seconds (86400 - 300) |},
          w')
       /\ now w' = 1700000000000 + 40
       /\ login_posts w' = 1%nat.
Proof.
  split.
  - apply (authenticate_establishes_session cfg_api_key remote_ok newClient world0).
    + reflexivity.
    + discriminate.
  - refine (proj2 (authenticate_establishes_session
                     cfg_password remote_ok newClient world0 eq_refl)
              eq_refl _ _
              {| access_token := "jwt"; token_type := "Bearer"; expires_in := 86400 |}
              40 eq_refl).
    + discriminate.
    + discriminate.
Defined.

Lemma getAuthHeaders_reuses_session_witness :
  let c := {| accessToken := Some "jwt"; tokenExpiry := 1700000000000 + 5000 |} in
  getAuthHeaders cfg_password remote_ok c world0 = (Return (headers_of "jwt"), c, world0)
  /\ forall w2,
       sent w2 = sent world0 -> now w2 < tokenExpiry c ->
       getAuthHeaders cfg_password remote_ok c w2 = (Return (headers_of "jwt"), c, w2)
       /\ login_posts w2 = login_posts world0.
Proof.
  intros c.
  apply (getAuthHeaders_reuses_session cfg_password remote_ok c world0 "jwt").
  - reflexivity.
  - discriminate.
  - reflexivity.
Defined.

(** ** The request executor *)

(** Against a service that rejects every post with 401 the recursion of the
    401 branch has no end: no amount of fuel lets the call return. *)
Lemma executeGraphQL_always_unauthorized fuel query variables c w :
  executeGraphQL cfg_api_key remote_always_unauthorized fuel query variables c w = None.
Proof.
  revert c w. induction fuel as [|fuel IH]; intros c w; [reflexivity|].
  cbn [executeGraphQL]. unfold getAuthHeaders, authenticate.
  destruct (truthy (accessToken c) && (now w <? tokenExpiry c)%Z);
    cbn; apply IH.
Qed.

(** C1: the code at two consecutive 401 replies.  The second 401 is answered
    like the first, by clearing the session and calling again: a third post
    is made and its payload returned, where the claim has the call fail after
    the second. *)
Theorem executeGraphQL_retries_after_second_401 :
  exists c w,
    executeGraphQL cfg_password (remote_unauthorized_first 2) 3
      (Some "{ assets { totalCount } }") None newClient world0
      = Some (Return "{}", c, w)
    /\ graphql_posts w = 3%nat
    /\ login_posts w = 3%nat.
Proof.
  eexists. eexists. split; [vm_compute; reflexivity|].
  split; reflexivity.
Qed.

(** With an API key configured, a call of [executeGraphQL] that returns has
    posted the query it was given, whatever its text: nothing stands between
    the caller's text and the wire. *)
Lemma executeGraphQL_always_posts cfg remote fuel query variables c w r c' w' :
  BRINQA_API_KEY cfg <> "" ->
  executeGraphQL cfg remote fuel query variables c w = Some (r, c', w') ->
  exists h log, sent w' = (log ++ PostGraphQL h query variables :: sent w)%list.
Proof.
  intros Hkey. revert c w.
  induction fuel as [|fuel IH]; intros c w; [discriminate|].
  cbn [executeGraphQL].
  assert (A : exists c1, authenticate cfg remote c w = (Return tt, c1, w)).
  { unfold authenticate.
    destruct (truthy (accessToken c) && (now w <? tokenExpiry c)%Z).
    - now eexists.
    - rewrite (eqb_empty_false _ Hkey). now eexists. }
  destruct A as [c1 A]. unfold getAuthHeaders. rewrite A.
  cbn [send sent].
  destruct (graphql_reply remote _) as [[response|status rm m] dt].
  - destruct (errors response) as [[|e es]|]; destruct (data response);
      intros [= <- <- <-]; eexists; exists []; reflexivity.
  - assert (R : forall x,
               Some (@Throw string ("GraphQL request failed: " ++ error_message rm m),
                     c1, x) = Some (r, c', w') ->
               sent x = (PostGraphQL (headers_of_token c1) query variables :: sent w)%list ->
               exists h log,
                 sent w' = (log ++ PostGraphQL h query variables :: sent w)%list).
    { intros x [= <- <- <-] Hx. eexists. exists []. exact Hx. }
    destruct status as [[|p|p]|]; try (intros H; eapply R; [exact H|reflexivity]).
    destruct (Pos.eq_dec p 401) as [->|Hp].
    + intros H. destruct (IH _ _ H) as (h & log & E).
      cbn [elapse sent] in E. eexists. exists (log ++ [PostGraphQL h query variables])%list.
      rewrite E, <- app_assoc. reflexivity.
    + assert (E : forall (X Y : option (outcome string * BrinqaClient * World)),
                 match p with 401%positive => X | _ => Y end = Y).
      { intros X Y. clear -Hp.
        repeat (destruct p as [p|p|]; try reflexivity); congruence. }
      rewrite E. intros H; eapply R; [exact H|reflexivity].
Qed.

(** C2: the code at input that carries clause-terminating sequences.  Neither
    the raw query of [execute_graphql] nor the [filter] of [query_assets] is
    examined: each reaches the GraphQL endpoint, the filter value verbatim
    inside the generated document, and the service's answer is returned with
    no error raised. *)
Theorem injection_patterns_reach_the_service :
  (exists c w,
     callTool cfg_api_key remote_ok 1
       (execute_graphql (Some "mutation { __typename }") None) newClient world0
       = Some ({| text := "{}"; isError := false |}, c, w)
     /\ sent w = [PostGraphQL (headers_of "secret-key")
                    (Some "mutation { __typename }") None])
  /\
  (exists c w q,
     callTool cfg_api_key remote_ok 1
       (query_assets (assets_with_filter injected)) newClient world0
       = Some ({| text := "{}"; isError := false |}, c, w)
     /\ sent w = [PostGraphQL (headers_of "secret-key") (Some q) None]
     /\ includes q injected = true).
Proof.
  split.
  - eexists. eexists. split; [vm_compute; reflexivity|reflexivity].
  - eexists. eexists. eexists. split; [vm_compute; reflexivity|].
    split; [reflexivity|vm_compute; reflexivity].
Qed.

(** C9: the code at an empty and at a missing query text.  Both are posted
    to the GraphQL endpoint and the service's answer is returned; no
    validation error is raised and the network is not spared. *)
Theorem empty_query_is_posted :
  (exists c w,
     callTool cfg_api_key remote_ok 1 (execute_graphql (Some "") None) newClient world0
       = Some ({| text := "{}"; isError := false |}, c, w)
     /\ sent w = [PostGraphQL (headers_of "secret-key") (Some "") None])
  /\
  (exists c w,
     callTool cfg_api_key remote_ok 1 (execute_graphql None None) newClient world0
       = Some ({| text := "{}"; isError := false |}, c, w)
     /\ sent w = [PostGraphQL (headers_of "secret-key") None None]).
Proof.
  split.
  - eexists. eexists. split; [vm_compute; reflexivity|reflexivity].
  - eexists. eexists. split; [vm_compute; reflexivity|reflexivity].
Qed.

(** ** The query builders: document shape and result-count limit *)

Lemma startsWith_app_same (a b c : string) :
  startsWith (a ++ b) (a ++ c) = startsWith b c.
Proof.
  induction a as [|x a IH]; [reflexivity|].
  simpl. now rewrite Ascii.eqb_refl.
Qed.

(** C7: a risk-score document is the single-entity lookup of [id] when the
    scope is ["ASSET"] and [entity_id] is supplied as the non-empty [id], and
    is the organization summary in every other case. *)
Theorem buildRiskScoresQuery_shape (p : RiskScores.params) :
  let doc := RiskScores.buildRiskScoresQuery p in
  (forall id,
     RiskScores.scope p = Some "ASSET" ->
     RiskScores.entity_id p = Some id -> id <> "" ->
     single_entity_shape doc id = true
     /\ organization_summary_shape doc = false)
  /\
  (RiskScores.scope p <> Some "ASSET"
   \/ RiskScores.entity_id p = None
   \/ RiskScores.entity_id p = Some "" ->
   organization_summary_shape doc = true
   /\ forall id, single_entity_shape doc id = false).
Proof.
  cbv zeta. unfold RiskScores.buildRiskScoresQuery, RiskScores.scope_is_asset.
  split.
  - intros id Hs He Hid. rewrite Hs, He. cbn [truthy interp].
    rewrite (eqb_empty_false _ Hid).
    change (("ASSET" =? "ASSET") && negb false) with true. cbv iota.
    split; [|reflexivity].
    unfold single_entity_shape.
    rewrite (startsWith_app_same _ _ (dq ++ id ++ dq ++ ") {")).
    rewrite (startsWith_app_same dq).
    rewrite (startsWith_app_same id).
    rewrite (startsWith_app_same dq).
    reflexivity.
  - intros H.
    assert (E : match RiskScores.scope p with
                | Some s => s =? "ASSET"
                | None => false
                end && truthy (RiskScores.entity_id p) = false).
    { destruct H as [H|[H|H]].
      - destruct (RiskScores.scope p) as [s|]; [|reflexivity].
        destruct (String.eqb_spec s "ASSET") as [->|_]; [congruence|reflexivity].
      - rewrite H. apply andb_false_r.
      - rewrite H. apply andb_false_r. }
    rewrite E. split; [reflexivity|]. intros id. reflexivity.
Qed.

Lemma buildRiskScoresQuery_shape_witness :
  (single_entity_shape (RiskScores.buildRiskScoresQuery risk_of_host) "host-1" = true
   /\ organization_summary_shape (RiskScores.buildRiskScoresQuery risk_of_host) = false)
  /\
  (organization_summary_shape (RiskScores.buildRiskScoresQuery risk_of_organization) = true
   /\ forall id,
        single_entity_shape (RiskScores.buildRiskScoresQuery risk_of_organization) id
        = false).
Proof.
  split.
  - apply (proj1 (buildRiskScoresQuery_shape risk_of_host) "host-1").
    + reflexivity.
    + reflexivity.
    + discriminate.
  - apply (proj2 (buildRiskScoresQuery_shape risk_of_organization)).
    right. left. reflexivity.
Defined.

Lemma clamp_effective (l : option Z) (d c : Z) :
  d <= c -> Math_min (or_num l d) c = effective_limit l d c.
Proof.
  intros H. unfold Math_min, or_num, effective_limit.
  destruct l as [z|]; [destruct (z =? 0)%Z|]; lia.
Qed.

Lemma includes_first_argument (pre post : string) (n : Z) :
  includes (pre ++ "nodes(first: " ++ Number_toString n ++ ")" ++ post)
           (first_argument n) = true.
Proof.
  apply includes_app_right. unfold first_argument.
  replace ("nodes(first: " ++ Number_toString n ++ ")" ++ post)
    with (("nodes(first: " ++ Number_toString n ++ ")") ++ post).
  - apply includes_self_prefix.
  - now rewrite !append_assoc.
Qed.

(** Every builder with a limit writes it as the [first] argument of
    [nodes]. *)
Ltac find_first_argument :=
  cbv zeta; do 2 apply includes_app_right;
  first
    [ apply (includes_first_argument " {
        totalCount
        pageInfo {
          hasNextPage
          endCursor
        }
        ")
    | apply (includes_first_argument " {
        ") ].

Lemma buildAssetsQuery_first (p : Assets.params) :
  includes (Assets.buildAssetsQuery p)
    (first_argument (Math_min (or_num (Assets.limit p) 100) 1000)) = true.
Proof. unfold Assets.buildAssetsQuery. find_first_argument. Qed.

Lemma buildVulnerabilitiesQuery_first (p : Vulnerabilities.params) :
  includes (Vulnerabilities.buildVulnerabilitiesQuery p)
    (first_argument (Math_min (or_num (Vulnerabilities.limit p) 100) 1000)) = true.
Proof. unfold Vulnerabilities.buildVulnerabilitiesQuery. find_first_argument. Qed.

Lemma buildFindingsQuery_first (p : Findings.params) :
  includes (Findings.buildFindingsQuery p)
    (first_argument (Math_min (or_num (Findings.limit p) 100) 1000)) = true.
Proof. unfold Findings.buildFindingsQuery. find_first_argument. Qed.

Lemma buildTicketsQuery_first (p : Tickets.params) :
  includes (Tickets.buildTicketsQuery p)
    (first_argument (Math_min (or_num (Tickets.limit p) 100) 1000)) = true.
Proof. unfold Tickets.buildTicketsQuery. find_first_argument. Qed.

Lemma buildClustersQuery_first (p : Clusters.params) :
  includes (Clusters.buildClustersQuery p)
    (first_argument (Math_min (or_num (Clusters.limit p) 50) 500)) = true.
Proof. unfold Clusters.buildClustersQuery. find_first_argument. Qed.

Lemma effective_limit_bound (l : option Z) (d c : Z) :
  d <= c -> effective_limit l d c <= c.
Proof.
  intros H. unfold effective_limit.
  destruct l as [z|]; [destruct (z =? 0)%Z|]; lia.
Qed.

Lemma clamp_of_effective (l : option Z) (d c : Z) :
  0 < d <= c ->
  Math_min (or_num (Some (effective_limit l d c)) d) c = Math_min (or_num l d) c.
Proof.
  intros H. unfold Math_min, or_num, effective_limit.
  destruct l as [z|].
  - destruct (Z.eqb_spec z 0) as [->|Hz].
    + destruct (Z.eqb_spec d 0); lia.
    + destruct (Z.eqb_spec (Z.min z c) 0); lia.
  - destruct (Z.eqb_spec d 0); lia.
Qed.

(** C5, the claim as stated, at a supplied limit of 0: the document does not
    carry min(0, 1000) = 0 as its limit but the default 100. *)
Lemma supplied_zero_limit_is_not_the_minimum :
  Assets.limit (assets_with_limit (Some 0)) = Some 0
  /\ includes (Assets.buildAssetsQuery (assets_with_limit (Some 0)))
       (first_argument (Z.min 0 1000)) = false
  /\ includes (Assets.buildAssetsQuery (assets_with_limit (Some 0)))
       (first_argument 100) = true.
Proof. split; [reflexivity|]. split; vm_compute; reflexivity. Qed.

(** C5, amended: every builder with a limit writes [nodes(first: n)] with
    [n] the default (100; 50 for clusters) when the limit is unset or 0 and
    min(limit, ceiling) (ceiling 1000; 500 for clusters) otherwise; [n]
    never exceeds the ceiling, and the document is the one the builder
    yields for the limit [n] itself, so a limit above the ceiling leaves no
    other trace. *)
Theorem builders_clamp_limit :
  (forall p, includes (Assets.buildAssetsQuery p)
      (first_argument (effective_limit (Assets.limit p) 100 1000)) = true)
  /\ (forall p, includes (Vulnerabilities.buildVulnerabilitiesQuery p)
      (first_argument (effective_limit (Vulnerabilities.limit p) 100 1000)) = true)
  /\ (forall p, includes (Findings.buildFindingsQuery p)
      (first_argument (effective_limit (Findings.limit p) 100 1000)) = true)
  /\ (forall p, includes (Tickets.buildTicketsQuery p)
      (first_argument (effective_limit (Tickets.limit p) 100 1000)) = true)
  /\ (forall p, includes (Clusters.buildClustersQuery p)
      (first_argument (effective_limit (Clusters.limit p) 50 500)) = true)
  /\ (forall l, effective_limit l 100 1000 <= 1000)
  /\ (forall l, effective_limit l 50 500 <= 500)
  /\ (forall a s l f fs,
        Assets.buildAssetsQuery (Assets.Build_params a s l f fs)
        = Assets.buildAssetsQuery
            (Assets.Build_params a s (Some (effective_limit l 100 1000)) f fs))
  /\ (forall sv s cv l f fl,
        Vulnerabilities.buildVulnerabilitiesQuery
          (Vulnerabilities.Build_params sv s cv l f fl)
        = Vulnerabilities.buildVulnerabilitiesQuery
            (Vulnerabilities.Build_params sv s cv
               (Some (effective_limit l 100 1000)) f fl))
  /\ (forall ft s lo hi l ad,
        Findings.buildFindingsQuery (Findings.Build_params ft s lo hi l ad)
        = Findings.buildFindingsQuery
            (Findings.Build_params ft s lo hi
               (Some (effective_limit l 100 1000)) ad))
  /\ (forall s pr a sla l,
        Tickets.buildTicketsQuery (Tickets.Build_params s pr a sla l)
        = Tickets.buildTicketsQuery
            (Tickets.Build_params s pr a sla (Some (effective_limit l 100 1000))))
  /\ (forall ct l,
        Clusters.buildClustersQuery (Clusters.Build_params ct l)
        = Clusters.buildClustersQuery
            (Clusters.Build_params ct (Some (effective_limit l 50 500)))).
Proof.
  repeat split.
  - intros p. rewrite <- clamp_effective by lia. apply buildAssetsQuery_first.
  - intros p. rewrite <- clamp_effective by lia. apply buildVulnerabilitiesQuery_first.
  - intros p. rewrite <- clamp_effective by lia. apply buildFindingsQuery_first.
  - intros p. rewrite <- clamp_effective by lia. apply buildTicketsQuery_first.
  - intros p. rewrite <- clamp_effective by lia. apply buildClustersQuery_first.
  - intros l. apply effective_limit_bound. lia.
  - intros l. apply effective_limit_bound. lia.
  - intros. unfold Assets.buildAssetsQuery. cbn [Assets.limit].
    rewrite clamp_of_effective by lia. reflexivity.
  - intros. unfold Vulnerabilities.buildVulnerabilitiesQuery.
    cbn [Vulnerabilities.limit].
    rewrite clamp_of_effective by lia. reflexivity.
  - intros. unfold Findings.buildFindingsQuery. cbn [Findings.limit].
    rewrite clamp_of_effective by lia. reflexivity.
  - intros. unfold Tickets.buildTicketsQuery. cbn [Tickets.limit].
    rewrite clamp_of_effective by lia. reflexivity.
  - intros. unfold Clusters.buildClustersQuery. cbn [Clusters.limit].
    rewrite clamp_of_effective by lia. reflexivity.
Qed.

(** C10: a supplied limit of 0 is read as no limit.  Each builder yields for
    it the very document it yields when the limit is unset, and that
    document carries the default, 100 or, for clusters, 50; a query with no
    other parameter shows no [nodes(first: 0)]. *)
Theorem zero_limit_is_default :
  (forall a s f fs,
     Assets.buildAssetsQuery (Assets.Build_params a s (Some 0) f fs)
     = Assets.buildAssetsQuery (Assets.Build_params a s None f fs)
     /\ includes (Assets.buildAssetsQuery (Assets.Build_params a s (Some 0) f fs))
          (first_argument 100) = true)
  /\ (forall sv s cv f fl,
     Vulnerabilities.buildVulnerabilitiesQuery
       (Vulnerabilities.Build_params sv s cv (Some 0) f fl)
     = Vulnerabilities.buildVulnerabilitiesQuery
         (Vulnerabilities.Build_params sv s cv None f fl)
     /\ includes (Vulnerabilities.buildVulnerabilitiesQuery
                   (Vulnerabilities.Build_params sv s cv (Some 0) f fl))
          (first_argument 100) = true)
  /\ (forall ft s lo hi ad,
     Findings.buildFindingsQuery (Findings.Build_params ft s lo hi (Some 0) ad)
     = Findings.buildFindingsQuery (Findings.Build_params ft s lo hi None ad)
     /\ includes (Findings.buildFindingsQuery
                   (Findings.Build_params ft s lo hi (Some 0) ad))
          (first_argument 100) = true)
  /\ (forall s pr a sla,
     Tickets.buildTicketsQuery (Tickets.Build_params s pr a sla (Some 0))
     = Tickets.buildTicketsQuery (Tickets.Build_params s pr a sla None)
     /\ includes (Tickets.buildTicketsQuery (Tickets.Build_params s pr a sla (Some 0)))
          (first_argument 100) = true)
  /\ (forall ct,
     Clusters.buildClustersQuery (Clusters.Build_params ct (Some 0))
     = Clusters.buildClustersQuery (Clusters.Build_params ct None)
     /\ includes (Clusters.buildClustersQuery (Clusters.Build_params ct (Some 0)))
          (first_argument 50) = true)
  /\ includes (Assets.buildAssetsQuery (assets_with_limit (Some 0)))
       (first_argument 0) = false
  /\ includes (Clusters.buildClustersQuery (clusters_with_limit (Some 0)))
       (first_argument 0) = false.
Proof.
  repeat split.
  - apply (buildAssetsQuery_first (Assets.Build_params a s (Some 0) f fs)).
  - apply (buildVulnerabilitiesQuery_first
             (Vulnerabilities.Build_params sv s cv (Some 0) f fl)).
  - apply (buildFindingsQuery_first (Findings.Build_params ft s lo hi (Some 0) ad)).
  - apply (buildTicketsQuery_first (Tickets.Build_params s pr a sla (Some 0))).
  - apply (buildClustersQuery_first (Clusters.Build_params ct (Some 0))).
Qed.

(** ** The query builders: searching a generated document *)

Lemma includes_refl (s : string) : includes s s = true.
Proof.
  rewrite <- (append_empty_r s) at 1. apply includes_self_prefix.
Qed.

Lemma starts_clear_app (p s r : string) :
  starts_clear p s = true -> starts_clear p (s ++ r) = true.
Proof.
  unfold starts_clear. destruct p; [discriminate|].
  destruct s; [discriminate|]. exact (fun H => H).
Qed.

Lemma starts_clear_nonempty (p r : string) :
  starts_clear p r = true -> includes "" p = false.
Proof. destruct p; [discriminate|reflexivity]. Qed.

(** Characters foreign to the needle, in front of a string, change nothing
    to the search. *)
Lemma includes_skip_foreign (p a r : string) :
  p <> "" ->
  all_chars (fun c => negb (occurs c p)) a = true ->
  includes (a ++ r) p = includes r p.
Proof.
  intros Hp. induction a as [|x a IH]; intros H; [reflexivity|].
  simpl in H. apply andb_true_iff in H as [Hx Ha].
  change (String x a ++ r) with (String x (a ++ r)).
  cbn [includes]. rewrite (IH Ha).
  destruct p as [|y p]; [congruence|].
  cbn [startsWith]. apply negb_true_iff in Hx. cbn [occurs] in Hx.
  apply orb_false_iff in Hx as [Hx _]. now rewrite Hx.
Qed.

Lemma numeral_chars_foreign (p s : string) :
  all_chars (fun c => negb (is_num_char c)) p = true ->
  all_chars is_num_char s = true ->
  all_chars (fun c => negb (occurs c p)) s = true.
Proof.
  intros Hp. induction s as [|x s IH]; intros H; [reflexivity|].
  simpl in H. apply andb_true_iff in H as [Hx Hs].
  cbn [all_chars]. rewrite (IH Hs), andb_true_r.
  apply negb_true_iff. clear IH Hs.
  induction p as [|y p IHp]; [reflexivity|].
  simpl in Hp. apply andb_true_iff in Hp as [Hy Hp].
  cbn [occurs]. rewrite (IHp Hp), orb_false_r.
  destruct (Ascii.eqb_spec y x) as [->|_]; [|reflexivity].
  rewrite Hx in Hy. discriminate.
Qed.

(** A numeral in front of a string changes nothing to the search for a
    needle without digits. *)
Lemma includes_numeral_app (z : Z) (r p : string) :
  clear_of_numerals p = true ->
  includes (Number_toString z ++ r) p = includes r p.
Proof.
  unfold clear_of_numerals. destruct p as [|y p]; [discriminate|]. intros H.
  apply includes_skip_foreign; [discriminate|].
  apply (numeral_chars_foreign _ _ H (Number_toString_chars z)).
Qed.

Lemma includes_join_false (p sep : string) (l : list string) :
  starts_clear p sep = true -> ends_clear p sep = true ->
  includes sep p = false ->
  Forall (fun c => includes c p = false) l ->
  includes (join l sep) p = false.
Proof.
  intros S1 S2 S3. induction 1 as [|c l Hc Hl IH]; unfold join in *.
  - exact (starts_clear_nonempty _ _ S1).
  - destruct l as [|c' l]; [exact Hc|].
    change (concat sep (c :: c' :: l)) with (c ++ sep ++ concat sep (c' :: l)).
    rewrite (includes_app_l_clear p c), (includes_app_r_clear p sep) by
      (try apply starts_clear_app; assumption).
    now rewrite Hc, IH, S3.
Qed.

Lemma clear_of_punctuation_seams (p : string) :
  clear_of_punctuation p = true ->
  starts_clear p "(" = true /\ starts_clear p ")" = true
  /\ starts_clear p ", " = true /\ ends_clear p ", " = true
  /\ ends_clear p "(" = true /\ includes ", " p = false
  /\ includes "(" p = false /\ includes ")" p = false.
Proof.
  unfold clear_of_punctuation. destruct p as [|x p]; [discriminate|].
  intros H. apply andb_true_iff in H as [H H4].
  apply andb_true_iff in H as [H H3]. apply andb_true_iff in H as [H1 H2].
  unfold starts_clear, ends_clear. cbn [append last_char].
  repeat split; try assumption.
  all: apply negb_true_iff in H1, H2, H3, H4; cbn [occurs] in H1, H2, H3, H4.
  all: apply orb_false_iff in H1 as [H1 _]; apply orb_false_iff in H2 as [H2 _].
  all: apply orb_false_iff in H3 as [H3 _]; apply orb_false_iff in H4 as [H4 _].
  all: cbn [includes startsWith]; now rewrite ?H1, ?H2, ?H3, ?H4.
Qed.

(** The argument list [filterStr] of a document holds the needle only if
    one of its clauses does. *)
Lemma includes_filterStr (p : string) (l : list string) :
  clear_of_punctuation p = true ->
  Forall (fun c => includes c p = false) l ->
  includes (if (0 <? List.length l)%nat then "(" ++ join l ", " ++ ")" else "") p
  = false.
Proof.
  intros Hp Hl.
  destruct (clear_of_punctuation_seams p Hp) as (S1 & S2 & S3 & S4 & S5 & P0 & P1 & P2).
  destruct (0 <? List.length l)%nat.
  - rewrite (includes_app_r_clear _ _ _ S5), (includes_app_l_clear _ _ _ S2).
    rewrite (includes_join_false p ", " l S3 S4 P0 Hl), P1. exact P2.
  - exact (starts_clear_nonempty _ _ S1).
Qed.

Lemma includes_around_filterStr (p a r : string) (l : list string) :
  clear_of_punctuation p = true ->
  starts_clear p r = true ->
  Forall (fun c => includes c p = false) l ->
  includes (a ++ (if (0 <? List.length l)%nat
                  then "(" ++ join l ", " ++ ")" else "") ++ r) p
  = includes a p || includes r p.
Proof.
  intros Hp Hr Hl. pose proof (includes_filterStr p l Hp Hl) as F.
  destruct (clear_of_punctuation_seams p Hp) as (S1 & _).
  destruct (0 <? List.length l)%nat.
  - rewrite (includes_app_l_clear p a);
      [|exact (starts_clear_app p "(" _ S1)].
    rewrite (includes_app_l_clear p _ r Hr), F. reflexivity.
  - change ("" ++ r) with r. apply (includes_app_l_clear p a r Hr).
Qed.

Lemma Forall_push_if {P : string -> Prop} (b : bool) (l : list string) (c : string) :
  Forall P l -> (b = true -> P c) -> Forall P (if b then push l c else l).
Proof.
  intros Hl Hc. destruct b; [|exact Hl].
  unfold push. apply Forall_app. split; [exact Hl|]. constructor; auto.
Qed.

Lemma In_push_if_here (b : bool) (l : list string) (c : string) :
  b = true -> In c (if b then push l c else l).
Proof. intros ->. unfold push. apply in_or_app. right. now left. Qed.

Lemma In_push_if_there (b : bool) (l : list string) (c x : string) :
  In c l -> In c (if b then push l x else l).
Proof.
  intros H. destruct b; [|exact H]. unfold push. apply in_or_app. now left.
Qed.

Lemma includes_join_true (sep c : string) (l : list string) :
  In c l -> includes (join l sep) c = true.
Proof.
  unfold join. induction l as [|x l IH]; [contradiction|].
  intros [->|H].
  - destruct l as [|y l]; [apply includes_refl|].
    change (concat sep (c :: y :: l)) with (c ++ sep ++ concat sep (y :: l)).
    apply includes_self_prefix.
  - destruct l as [|y l]; [contradiction|].
    change (concat sep (x :: y :: l)) with (x ++ sep ++ concat sep (y :: l)).
    do 2 apply includes_app_right. now apply IH.
Qed.

(** A document holds every clause of its argument list. *)
Lemma includes_clause (a r c : string) (l : list string) :
  In c l ->
  includes (a ++ (if (0 <? List.length l)%nat
                  then "(" ++ join l ", " ++ ")" else "") ++ r) c = true.
Proof.
  intros H. apply includes_app_right, includes_app_left.
  destruct l as [|x l]; [contradiction|].
  change (0 <? List.length (x :: l))%nat with true. cbv iota.
  apply includes_app_right, includes_app_left.
  now apply includes_join_true.
Qed.

Lemma truthy_interp (o : option string) (p : string) :
  free_of p o -> truthy o = true -> includes (interp o) p = false.
Proof.
  intros H. destruct o as [v|]; [|discriminate]. intros _. now apply H.
Qed.

Lemma flag_off (flag : option bool) : flag <> Some true -> truthy_bool flag = false.
Proof. destruct flag as [[|]|]; [congruence|reflexivity|reflexivity]. Qed.

Lemma flag_on (flag : option bool) : flag = Some true -> truthy_bool flag = true.
Proof. now intros ->. Qed.

(** Cut a search through a concatenation at every seam that a character
    foreign to the needle guards. *)
Ltac split_search :=
  repeat first
    [ rewrite includes_app_r_clear by reflexivity
    | rewrite includes_app_l_clear by reflexivity
    | rewrite includes_numeral_app by reflexivity ].

(** Find in a concatenation the piece that is the needle. *)
Ltac find_piece :=
  solve [ apply includes_refl
        | apply includes_app_left; apply includes_refl
        | apply includes_app_right; find_piece ].

Ltac use_provisos :=
  repeat match goal with
    | H : Forall _ (_ :: _) |- _ =>
        let H1 := fresh "Hfree" in
        apply Forall_cons_iff in H; destruct H as [H1 H]
    end.

Ltac close_leaves :=
  repeat match goal with
    | Hf : free_of ?p ?o, T : truthy ?o = true |- context [includes (interp ?o) ?p] =>
        rewrite (truthy_interp o p Hf T)
    | Hf : free_of ?p (Some ?v) |- context [includes ?v ?p] =>
        rewrite (Hf v eq_refl)
    end;
  rewrite ?includes_numeral by reflexivity;
  try reflexivity.

(** ** The query builders: nested blocks *)

Lemma buildVulnerabilitiesQuery_block (p : Vulnerabilities.params) :
  block_follows_flag (Vulnerabilities.buildVulnerabilitiesQuery p)
    (Vulnerabilities.include_affected_assets p)
    affectedAssets_block "affectedAssets"
    [Vulnerabilities.severity p; Vulnerabilities.status p;
     Vulnerabilities.cve_id p; Vulnerabilities.filter p].
Proof.
  split.
  - intros H. unfold Vulnerabilities.buildVulnerabilitiesQuery. cbv zeta.
    rewrite (flag_on _ H). cbv iota. find_piece.
  - intros H V. unfold Vulnerabilities.buildVulnerabilitiesQuery. cbv zeta.
    rewrite (flag_off _ H). cbv iota. use_provisos.
    rewrite includes_around_filterStr; [ | reflexivity | reflexivity | ].
    + split_search. close_leaves.
    + repeat apply Forall_push_if; [constructor | intros T ..];
        split_search; close_leaves.
Qed.

Lemma buildConnectorsQuery_block (p : Connectors.params) :
  block_follows_flag (Connectors.buildConnectorsQuery p)
    (Connectors.include_sync_history p)
    syncHistory_block "syncHistory"
    [Connectors.connector_type p; Connectors.status p].
Proof.
  split.
  - intros H. unfold Connectors.buildConnectorsQuery. cbv zeta.
    rewrite (flag_on _ H). cbv iota. find_piece.
  - intros H V. unfold Connectors.buildConnectorsQuery. cbv zeta.
    rewrite (flag_off _ H). cbv iota. use_provisos.
    rewrite includes_around_filterStr; [ | reflexivity | reflexivity | ].
    + split_search. close_leaves.
    + repeat apply Forall_push_if; [constructor | intros T ..];
        split_search; close_leaves.
Qed.

Ltac both_shapes :=
  match goal with
  | |- context [if ?c then _ else _] => destruct c
  end.

Lemma buildRiskScoresQuery_factors (p : RiskScores.params) :
  block_follows_flag (RiskScores.buildRiskScoresQuery p)
    (RiskScores.include_factors p)
    riskFactors_block "riskFactors" [RiskScores.entity_id p].
Proof.
  split.
  - intros H. unfold RiskScores.buildRiskScoresQuery. cbv zeta.
    rewrite (flag_on _ H). cbv iota. both_shapes; find_piece.
  - intros H V. unfold RiskScores.buildRiskScoresQuery. cbv zeta.
    rewrite (flag_off _ H). cbv iota. use_provisos.
    destruct (RiskScores.entity_id p) as [v|]; cbn [interp];
      destruct (truthy_bool (RiskScores.include_trends p));
      both_shapes; split_search; close_leaves.
Qed.

Lemma buildRiskScoresQuery_trends (p : RiskScores.params) :
  block_follows_flag (RiskScores.buildRiskScoresQuery p)
    (RiskScores.include_trends p)
    riskTrends_block "riskTrends" [RiskScores.entity_id p].
Proof.
  split.
  - intros H. unfold RiskScores.buildRiskScoresQuery. cbv zeta.
    rewrite (flag_on _ H). cbv iota. both_shapes; find_piece.
  - intros H V. unfold RiskScores.buildRiskScoresQuery. cbv zeta.
    rewrite (flag_off _ H). cbv iota. use_provisos.
    destruct (RiskScores.entity_id p) as [v|]; cbn [interp];
      destruct (truthy_bool (RiskScores.include_factors p));
      both_shapes; split_search; close_leaves.
Qed.

Lemma buildDataModelsQuery_attributes (p : DataModels.params) :
  block_follows_flag (DataModels.buildDataModelsQuery p)
    (DataModels.include_attributes p)
    attributes_block "attributes" [DataModels.model_name p].
Proof.
  split.
  - intros H. unfold DataModels.buildDataModelsQuery. cbv zeta.
    rewrite (flag_on _ H). cbv iota. both_shapes; find_piece.
  - intros H V. unfold DataModels.buildDataModelsQuery. cbv zeta.
    rewrite (flag_off _ H). cbv iota. use_provisos.
    destruct (DataModels.model_name p) as [v|]; cbn [interp];
      destruct (truthy_bool (DataModels.include_relationships p));
      both_shapes; split_search; close_leaves.
Qed.

Lemma buildDataModelsQuery_relationships (p : DataModels.params) :
  block_follows_flag (DataModels.buildDataModelsQuery p)
    (DataModels.include_relationships p)
    relationships_block "relationships" [DataModels.model_name p].
Proof.
  split.
  - intros H. unfold DataModels.buildDataModelsQuery. cbv zeta.
    rewrite (flag_on _ H). cbv iota. both_shapes; find_piece.
  - intros H V. unfold DataModels.buildDataModelsQuery. cbv zeta.
    rewrite (flag_off _ H). cbv iota. use_provisos.
    destruct (DataModels.model_name p) as [v|]; cbn [interp];
      destruct (truthy_bool (DataModels.include_attributes p));
      both_shapes; split_search; close_leaves.
Qed.

Lemma frame_here (block post : string) : without_block (block ++ post) post block.
Proof. exists EmptyString, post. split; reflexivity. Qed.

Lemma frame_skip (a on off block : string) :
  without_block on off block -> without_block (a ++ on) (a ++ off) block.
Proof.
  intros (pre & post & -> & ->). exists (a ++ pre), post.
  split; now rewrite append_assoc.
Qed.

(** Walk down a document to the place of the block. *)
Ltac find_frame :=
  repeat first [ apply frame_here | apply frame_skip ].

Lemma buildVulnerabilitiesQuery_frame sv s cv l fi f :
  f <> Some true ->
  without_block
    (Vulnerabilities.buildVulnerabilitiesQuery
       (Vulnerabilities.Build_params sv s cv l fi (Some true)))
    (Vulnerabilities.buildVulnerabilitiesQuery
       (Vulnerabilities.Build_params sv s cv l fi f))
    affectedAssets_block.
Proof.
  intros H. unfold Vulnerabilities.buildVulnerabilitiesQuery.
  cbn [Vulnerabilities.include_affected_assets Vulnerabilities.severity
       Vulnerabilities.status Vulnerabilities.cve_id Vulnerabilities.limit
       Vulnerabilities.filter truthy_bool].
  rewrite (flag_off _ H). cbv zeta iota. find_frame.
Qed.

Lemma buildConnectorsQuery_frame ct s f :
  f <> Some true ->
  without_block
    (Connectors.buildConnectorsQuery (Connectors.Build_params ct s (Some true)))
    (Connectors.buildConnectorsQuery (Connectors.Build_params ct s f))
    syncHistory_block.
Proof.
  intros H. unfold Connectors.buildConnectorsQuery.
  cbn [Connectors.include_sync_history Connectors.connector_type
       Connectors.status truthy_bool].
  rewrite (flag_off _ H). cbv zeta iota. find_frame.
Qed.

Lemma buildRiskScoresQuery_factors_frame sc id tr f :
  f <> Some true ->
  without_block
    (RiskScores.buildRiskScoresQuery (RiskScores.Build_params sc id (Some true) tr))
    (RiskScores.buildRiskScoresQuery (RiskScores.Build_params sc id f tr))
    riskFactors_block.
Proof.
  intros H. unfold RiskScores.buildRiskScoresQuery, RiskScores.scope_is_asset.
  cbn [RiskScores.include_factors RiskScores.include_trends RiskScores.scope
       RiskScores.entity_id truthy_bool].
  rewrite (flag_off _ H). cbv zeta.
  destruct (match sc with Some s => s =? "ASSET" | None => false end && truthy id);
    cbv iota; find_frame.
Qed.

Lemma buildRiskScoresQuery_trends_frame sc id fa f :
  f <> Some true ->
  without_block
    (RiskScores.buildRiskScoresQuery (RiskScores.Build_params sc id fa (Some true)))
    (RiskScores.buildRiskScoresQuery (RiskScores.Build_params sc id fa f))
    riskTrends_block.
Proof.
  intros H. unfold RiskScores.buildRiskScoresQuery, RiskScores.scope_is_asset.
  cbn [RiskScores.include_factors RiskScores.include_trends RiskScores.scope
       RiskScores.entity_id truthy_bool].
  rewrite (flag_off _ H). cbv zeta.
  destruct (match sc with Some s => s =? "ASSET" | None => false end && truthy id);
    cbv iota; find_frame.
Qed.

Lemma buildDataModelsQuery_attributes_frame mn rel f :
  f <> Some true ->
  without_block
    (DataModels.buildDataModelsQuery (DataModels.Build_params mn (Some true) rel))
    (DataModels.buildDataModelsQuery (DataModels.Build_params mn f rel))
    attributes_block.
Proof.
  intros H. unfold DataModels.buildDataModelsQuery.
  cbn [DataModels.include_attributes DataModels.include_relationships
       DataModels.model_name truthy_bool].
  rewrite (flag_off _ H). cbv zeta.
  destruct (truthy mn); cbv iota; find_frame.
Qed.

Lemma buildDataModelsQuery_relationships_frame mn att f :
  f <> Some true ->
  without_block
    (DataModels.buildDataModelsQuery (DataModels.Build_params mn att (Some true)))
    (DataModels.buildDataModelsQuery (DataModels.Build_params mn att f))
    relationships_block.
Proof.
  intros H. unfold DataModels.buildDataModelsQuery.
  cbn [DataModels.include_attributes DataModels.include_relationships
       DataModels.model_name truthy_bool].
  rewrite (flag_off _ H). cbv zeta.
  destruct (truthy mn); cbv iota; find_frame.
Qed.

(** C8: for each of the six inclusion flags, the nested block stands in the
    generated document when the flag is [true]; when the flag is unset or
    [false] the builder writes nothing in the block's place: the document
    is the one for the flag [true] with the block taken out, not a block
    with an empty body.  The block's field name is then nowhere in the
    document text, a caller-supplied string that spells that name itself
    apart. *)
Theorem nested_blocks_written_with_flags :
  (forall sv s cv l fi flag,
     block_written_with_flag
       (fun f => Vulnerabilities.buildVulnerabilitiesQuery
                   (Vulnerabilities.Build_params sv s cv l fi f))
       flag affectedAssets_block "affectedAssets" [sv; s; cv; fi])
  /\ (forall ct s flag,
     block_written_with_flag
       (fun f => Connectors.buildConnectorsQuery (Connectors.Build_params ct s f))
       flag syncHistory_block "syncHistory" [ct; s])
  /\ (forall sc id tr flag,
     block_written_with_flag
       (fun f => RiskScores.buildRiskScoresQuery (RiskScores.Build_params sc id f tr))
       flag riskFactors_block "riskFactors" [id])
  /\ (forall sc id fa flag,
     block_written_with_flag
       (fun f => RiskScores.buildRiskScoresQuery (RiskScores.Build_params sc id fa f))
       flag riskTrends_block "riskTrends" [id])
  /\ (forall mn rel flag,
     block_written_with_flag
       (fun f => DataModels.buildDataModelsQuery (DataModels.Build_params mn f rel))
       flag attributes_block "attributes" [mn])
  /\ (forall mn att flag,
     block_written_with_flag
       (fun f => DataModels.buildDataModelsQuery (DataModels.Build_params mn att f))
       flag relationships_block "relationships" [mn]).
Proof.
  repeat apply conj; intros; unfold block_written_with_flag.
  - pose proof (buildVulnerabilitiesQuery_block
                  (Vulnerabilities.Build_params sv s cv l fi flag)) as [P A].
    split; [exact P|]. split; [|exact A].
    intros f Hf. now apply buildVulnerabilitiesQuery_frame.
  - pose proof (buildConnectorsQuery_block
                  (Connectors.Build_params ct s flag)) as [P A].
    split; [exact P|]. split; [|exact A].
    intros f Hf. now apply buildConnectorsQuery_frame.
  - pose proof (buildRiskScoresQuery_factors
                  (RiskScores.Build_params sc id flag tr)) as [P A].
    split; [exact P|]. split; [|exact A].
    intros f Hf. now apply buildRiskScoresQuery_factors_frame.
  - pose proof (buildRiskScoresQuery_trends
                  (RiskScores.Build_params sc id fa flag)) as [P A].
    split; [exact P|]. split; [|exact A].
    intros f Hf. now apply buildRiskScoresQuery_trends_frame.
  - pose proof (buildDataModelsQuery_attributes
                  (DataModels.Build_params mn flag rel)) as [P A].
    split; [exact P|]. split; [|exact A].
    intros f Hf. now apply buildDataModelsQuery_attributes_frame.
  - pose proof (buildDataModelsQuery_relationships
                  (DataModels.Build_params mn att flag)) as [P A].
    split; [exact P|]. split; [|exact A].
    intros f Hf. now apply buildDataModelsQuery_relationships_frame.
Qed.

Lemma nested_blocks_written_with_flags_witness :
  includes (RiskScores.buildRiskScoresQuery vulnerable_hosts_risk) riskTrends_block
    = true
  /\ without_block
       (RiskScores.buildRiskScoresQuery
          (RiskScores.Build_params (Some "ASSET") (Some "host-1") (Some true) None))
       (RiskScores.buildRiskScoresQuery risk_of_host)
       riskFactors_block
  /\ includes (RiskScores.buildRiskScoresQuery risk_of_host) "riskFactors" = false.
Proof.
  destruct nested_blocks_written_with_flags as (_ & _ & F & T & _ & _).
  destruct (T (Some "ORGANIZATION") None None (Some true)) as (TP & _ & _).
  destruct (F (Some "ASSET") (Some "host-1") None None) as (_ & FW & FA).
  split; [exact (TP eq_refl)|]. split.
  - apply (FW None). discriminate.
  - apply FA.
    + discriminate.
    + constructor; [|constructor]. intros v [= <-]. reflexivity.
Defined.

(** ** The query builders: filter clauses *)

Ltac find_clause :=
  solve [ apply In_push_if_here; assumption
        | apply In_push_if_there; find_clause ].

Ltac clause_present :=
  intros; cbv zeta; apply includes_clause; find_clause.

Ltac open_numbers :=
  repeat match goal with
    | |- context [interp_num ?o] => destruct o as [?|]; cbn [interp_num]
    end.

Ltac clause_leaf :=
  first [ discriminate | congruence
        | open_numbers; split_search; close_leaves ].

Ltac clause_absent :=
  cbv zeta; use_provisos;
  rewrite includes_around_filterStr; [ | reflexivity | reflexivity | ];
  [ split_search; close_leaves
  | repeat apply Forall_push_if; [constructor | intros ? ..]; clause_leaf ].

Lemma free_selected (key : string) (l : list string) :
  Forall (free_of key) (List.map Some l) ->
  Forall (fun c => includes c key = false) l.
Proof.
  induction l as [|x l IH]; intros H; [constructor|].
  apply Forall_cons_iff in H as [Hx Hl].
  constructor; [now apply Hx|now apply IH].
Qed.

Lemma includes_selected_fields (p : Assets.params) (key default : string) :
  starts_clear key "
        " = true ->
  ends_clear key "
        " = true ->
  includes "
        " key = false ->
  includes default key = false ->
  Forall (free_of key) (selected_fields p) ->
  includes (or_str (option_map (fun l => join l "
        ") (Assets.fields p)) default) key = false.
Proof.
  intros S1 S2 S3 D. unfold selected_fields.
  destruct (Assets.fields p) as [l|]; cbn [option_map or_str]; [|now intros _].
  intros H. destruct (_ =? ""); [exact D|].
  apply includes_join_false; auto using free_selected.
Qed.

Lemma buildAssetsQuery_clauses (p : Assets.params) :
  let doc := Assets.buildAssetsQuery p in
  let values := Assets.asset_type p :: Assets.status p :: Assets.filter p
                :: selected_fields p in
  clause_follows doc ("assetType: " ++ dq ++ interp (Assets.asset_type p) ++ dq)
    "assetType:"
    (truthy (Assets.asset_type p) = true) (truthy (Assets.asset_type p) = false)
    values
  /\ clause_follows doc ("status: " ++ interp (Assets.status p)) "status:"
    (truthy (Assets.status p) = true) (truthy (Assets.status p) = false) values
  /\ clause_follows doc ("filter: " ++ dq ++ interp (Assets.filter p) ++ dq)
    "filter:"
    (truthy (Assets.filter p) = true) (truthy (Assets.filter p) = false) values.
Proof.
  unfold Assets.buildAssetsQuery.
  repeat apply conj; try clause_present.
  all: intros A V; cbv zeta; use_provisos.
  all: rewrite includes_around_filterStr; [ | reflexivity | reflexivity | ].
  all: try (split_search;
            rewrite (includes_selected_fields p) by (reflexivity || assumption);
            close_leaves).
  all: repeat apply Forall_push_if; [constructor | intros ? ..]; clause_leaf.
Qed.

Lemma buildVulnerabilitiesQuery_clauses (p : Vulnerabilities.params) :
  let doc := Vulnerabilities.buildVulnerabilitiesQuery p in
  let values := [Vulnerabilities.severity p; Vulnerabilities.status p;
                 Vulnerabilities.cve_id p; Vulnerabilities.filter p] in
  clause_follows doc ("severity: " ++ interp (Vulnerabilities.severity p))
    "severity:"
    (truthy (Vulnerabilities.severity p) = true)
    (truthy (Vulnerabilities.severity p) = false) values
  /\ clause_follows doc ("status: " ++ interp (Vulnerabilities.status p))
    "status:"
    (truthy (Vulnerabilities.status p) = true)
    (truthy (Vulnerabilities.status p) = false) values
  /\ clause_follows doc
    ("cveId: " ++ dq ++ interp (Vulnerabilities.cve_id p) ++ dq) "cveId:"
    (truthy (Vulnerabilities.cve_id p) = true)
    (truthy (Vulnerabilities.cve_id p) = false) values
  /\ clause_follows doc
    ("filter: " ++ dq ++ interp (Vulnerabilities.filter p) ++ dq) "filter:"
    (truthy (Vulnerabilities.filter p) = true)
    (truthy (Vulnerabilities.filter p) = false) values.
Proof.
  unfold Vulnerabilities.buildVulnerabilitiesQuery.
  repeat apply conj; try clause_present.
  all: intros A V;
    destruct (truthy_bool (Vulnerabilities.include_affected_assets p));
    clause_absent.
Qed.

Lemma buildFindingsQuery_clauses (p : Findings.params) :
  let doc := Findings.buildFindingsQuery p in
  let values := [Findings.finding_type p; Findings.status p] in
  clause_follows doc
    ("findingType: " ++ dq ++ interp (Findings.finding_type p) ++ dq)
    "findingType:"
    (truthy (Findings.finding_type p) = true)
    (truthy (Findings.finding_type p) = false) values
  /\ clause_follows doc ("status: " ++ interp (Findings.status p)) "status:"
    (truthy (Findings.status p) = true)
    (truthy (Findings.status p) = false) values
  /\ clause_follows doc
    ("riskScoreMin: " ++ interp_num (Findings.risk_score_min p)) "riskScoreMin:"
    (defined (Findings.risk_score_min p) = true)
    (defined (Findings.risk_score_min p) = false) values
  /\ clause_follows doc
    ("riskScoreMax: " ++ interp_num (Findings.risk_score_max p)) "riskScoreMax:"
    (defined (Findings.risk_score_max p) = true)
    (defined (Findings.risk_score_max p) = false) values
  /\ clause_follows doc
    ("discoveredAfter: " ++ dq ++ "-" ++ interp_num (Findings.age_days p)
       ++ "d" ++ dq)
    "discoveredAfter:"
    (truthy_num (Findings.age_days p) = true)
    (Findings.age_days p = None) values.
Proof.
  unfold Findings.buildFindingsQuery.
  repeat apply conj; try clause_present.
  1-4: intros A V; clause_absent.
  intros A V. rewrite A. clause_absent.
Qed.

Lemma buildTicketsQuery_clauses (p : Tickets.params) :
  let doc := Tickets.buildTicketsQuery p in
  let values := [Tickets.status p; Tickets.priority p;
                 Tickets.assignee p; Tickets.sla_status p] in
  clause_follows doc ("status: " ++ interp (Tickets.status p)) "status:"
    (truthy (Tickets.status p) = true)
    (truthy (Tickets.status p) = false) values
  /\ clause_follows doc ("priority: " ++ interp (Tickets.priority p)) "priority:"
    (truthy (Tickets.priority p) = true)
    (truthy (Tickets.priority p) = false) values
  /\ clause_follows doc
    ("assignee: " ++ dq ++ interp (Tickets.assignee p) ++ dq) "assignee:"
    (truthy (Tickets.assignee p) = true)
    (truthy (Tickets.assignee p) = false) values
  /\ clause_follows doc ("slaStatus: " ++ interp (Tickets.sla_status p))
    "slaStatus:"
    (truthy (Tickets.sla_status p) = true)
    (truthy (Tickets.sla_status p) = false) values.
Proof.
  unfold Tickets.buildTicketsQuery.
  repeat apply conj; try clause_present.
  all: intros A V; clause_absent.
Qed.

Lemma buildConnectorsQuery_clauses (p : Connectors.params) :
  let doc := Connectors.buildConnectorsQuery p in
  let values := [Connectors.connector_type p; Connectors.status p] in
  clause_follows doc
    ("connectorType: " ++ dq ++ interp (Connectors.connector_type p) ++ dq)
    "connectorType:"
    (truthy (Connectors.connector_type p) = true)
    (truthy (Connectors.connector_type p) = false) values
  /\ clause_follows doc ("status: " ++ interp (Connectors.status p)) "status:"
    (truthy (Connectors.status p) = true)
    (truthy (Connectors.status p) = false) values.
Proof.
  unfold Connectors.buildConnectorsQuery.
  repeat apply conj; try clause_present.
  all: intros A V;
    destruct (truthy_bool (Connectors.include_sync_history p));
    clause_absent.
Qed.

Lemma buildClustersQuery_clauses (p : Clusters.params) :
  let doc := Clusters.buildClustersQuery p in
  clause_follows doc
    ("clusterType: " ++ dq ++ interp (Clusters.cluster_type p) ++ dq)
    "clusterType:"
    (truthy (Clusters.cluster_type p) = true)
    (truthy (Clusters.cluster_type p) = false) [Clusters.cluster_type p].
Proof.
  unfold Clusters.buildClustersQuery.
  repeat apply conj; try clause_present.
  all: intros A V; clause_absent.
Qed.

(** C3, the claim as stated, at fields that are defined and falsy: an age of
    0 days yields no [discoveredAfter] clause and an empty asset type no
    [assetType] clause, while a minimum score of 0 does yield its clause. *)
Lemma defined_falsy_fields_without_clause :
  (Findings.age_days findings_at_zero = Some 0
   /\ includes (Findings.buildFindingsQuery findings_at_zero) "discoveredAfter"
      = false)
  /\ (Assets.asset_type assets_of_empty_type = Some ""
      /\ includes (Assets.buildAssetsQuery assets_of_empty_type) "assetType:"
         = false)
  /\ includes (Findings.buildFindingsQuery findings_at_zero) "riskScoreMin: 0"
     = true.
Proof.
  repeat split; vm_compute; reflexivity.
Qed.

(** C3, amended: in every builder a string-valued filter field yields its
    clause when it is defined and not empty, and none otherwise;
    [risk_score_min] and [risk_score_max] yield theirs when defined, 0
    included, and none when undefined; [age_days] yields its clause when
    defined and not 0, and none when undefined.  That a field yields no
    clause is read on the document text: the clause key is nowhere in it,
    provided no caller-supplied string of the query holds that key. *)
Theorem filter_clauses_follow_fields :
  (forall p,
     let doc := Assets.buildAssetsQuery p in
     let values := Assets.asset_type p :: Assets.status p :: Assets.filter p
                   :: selected_fields p in
     clause_follows doc ("assetType: " ++ dq ++ interp (Assets.asset_type p) ++ dq)
       "assetType:"
       (truthy (Assets.asset_type p) = true) (truthy (Assets.asset_type p) = false)
       values
     /\ clause_follows doc ("status: " ++ interp (Assets.status p)) "status:"
       (truthy (Assets.status p) = true) (truthy (Assets.status p) = false) values
     /\ clause_follows doc ("filter: " ++ dq ++ interp (Assets.filter p) ++ dq)
       "filter:"
       (truthy (Assets.filter p) = true) (truthy (Assets.filter p) = false) values)
  /\ (forall p,
     let doc := Vulnerabilities.buildVulnerabilitiesQuery p in
     let values := [Vulnerabilities.severity p; Vulnerabilities.status p;
                    Vulnerabilities.cve_id p; Vulnerabilities.filter p] in
     clause_follows doc ("severity: " ++ interp (Vulnerabilities.severity p))
       "severity:"
       (truthy (Vulnerabilities.severity p) = true)
       (truthy (Vulnerabilities.severity p) = false) values
     /\ clause_follows doc ("status: " ++ interp (Vulnerabilities.status p))
       "status:"
       (truthy (Vulnerabilities.status p) = true)
       (truthy (Vulnerabilities.status p) = false) values
     /\ clause_follows doc
       ("cveId: " ++ dq ++ interp (Vulnerabilities.cve_id p) ++ dq) "cveId:"
       (truthy (Vulnerabilities.cve_id p) = true)
       (truthy (Vulnerabilities.cve_id p) = false) values
     /\ clause_follows doc
       ("filter: " ++ dq ++ interp (Vulnerabilities.filter p) ++ dq) "filter:"
       (truthy (Vulnerabilities.filter p) = true)
       (truthy (Vulnerabilities.filter p) = false) values)
  /\ (forall p,
     let doc := Findings.buildFindingsQuery p in
     let values := [Findings.finding_type p; Findings.status p] in
     clause_follows doc
       ("findingType: " ++ dq ++ interp (Findings.finding_type p) ++ dq)
       "findingType:"
       (truthy (Findings.finding_type p) = true)
       (truthy (Findings.finding_type p) = false) values
     /\ clause_follows doc ("status: " ++ interp (Findings.status p)) "status:"
       (truthy (Findings.status p) = true)
       (truthy (Findings.status p) = false) values
     /\ clause_follows doc
       ("riskScoreMin: " ++ interp_num (Findings.risk_score_min p)) "riskScoreMin:"
       (defined (Findings.risk_score_min p) = true)
       (defined (Findings.risk_score_min p) = false) values
     /\ clause_follows doc
       ("riskScoreMax: " ++ interp_num (Findings.risk_score_max p)) "riskScoreMax:"
       (defined (Findings.risk_score_max p) = true)
       (defined (Findings.risk_score_max p) = false) values
     /\ clause_follows doc
       ("discoveredAfter: " ++ dq ++ "-" ++ interp_num (Findings.age_days p)
          ++ "d" ++ dq)
       "discoveredAfter:"
       (truthy_num (Findings.age_days p) = true)
       (Findings.age_days p = None) values)
  /\ (forall p,
     let doc := Tickets.buildTicketsQuery p in
     let values := [Tickets.status p; Tickets.priority p;
                    Tickets.assignee p; Tickets.sla_status p] in
     clause_follows doc ("status: " ++ interp (Tickets.status p)) "status:"
       (truthy (Tickets.status p) = true)
       (truthy (Tickets.status p) = false) values
     /\ clause_follows doc ("priority: " ++ interp (Tickets.priority p)) "priority:"
       (truthy (Tickets.priority p) = true)
       (truthy (Tickets.priority p) = false) values
     /\ clause_follows doc
       ("assignee: " ++ dq ++ interp (Tickets.assignee p) ++ dq) "assignee:"
       (truthy (Tickets.assignee p) = true)
       (truthy (Tickets.assignee p) = false) values
     /\ clause_follows doc ("slaStatus: " ++ interp (Tickets.sla_status p))
       "slaStatus:"
       (truthy (Tickets.sla_status p) = true)
       (truthy (Tickets.sla_status p) = false) values)
  /\ (forall p,
     let doc := Connectors.buildConnectorsQuery p in
     let values := [Connectors.connector_type p; Connectors.status p] in
     clause_follows doc
       ("connectorType: " ++ dq ++ interp (Connectors.connector_type p) ++ dq)
       "connectorType:"
       (truthy (Connectors.connector_type p) = true)
       (truthy (Connectors.connector_type p) = false) values
     /\ clause_follows doc ("status: " ++ interp (Connectors.status p)) "status:"
       (truthy (Connectors.status p) = true)
       (truthy (Connectors.status p) = false) values)
  /\ (forall p,
     let doc := Clusters.buildClustersQuery p in
     clause_follows doc
       ("clusterType: " ++ dq ++ interp (Clusters.cluster_type p) ++ dq)
       "clusterType:"
       (truthy (Clusters.cluster_type p) = true)
       (truthy (Clusters.cluster_type p) = false) [Clusters.cluster_type p]).
Proof.
  repeat apply conj.
  - exact buildAssetsQuery_clauses.
  - exact buildVulnerabilitiesQuery_clauses.
  - exact buildFindingsQuery_clauses.
  - exact buildTicketsQuery_clauses.
  - exact buildConnectorsQuery_clauses.
  - exact buildClustersQuery_clauses.
Qed.

Lemma filter_clauses_follow_fields_witness :
  includes (Findings.buildFindingsQuery findings_at_zero) "riskScoreMin: 0" = true
  /\ includes (Findings.buildFindingsQuery findings_at_zero) "status:" = false.
Proof.
  destruct filter_clauses_follow_fields as (_ & _ & F & _).
  destruct (F findings_at_zero) as (_ & S & M & _).
  split.
  - apply (proj1 M). reflexivity.
  - apply (proj2 S).
    + reflexivity.
    + repeat constructor; intros v; discriminate.
Defined.

(** ** The session manager: failures, precedence and lifetime *)

Lemma authenticate_log cfg remote c w r c1 w1 :
  authenticate cfg remote c w = (r, c1, w1) ->
  sent w1 = sent w
  \/ sent w1 = PostLogin (BRINQA_USERNAME cfg) (BRINQA_PASSWORD cfg) :: sent w.
Proof.
  unfold authenticate.
  destruct (truthy (accessToken c) && (now w <? tokenExpiry c)%Z);
    [intros [= <- <- <-]; now left|].
  destruct (negb (BRINQA_API_KEY cfg =? "")); [intros [= <- <- <-]; now left|].
  destruct ((BRINQA_USERNAME cfg =? "") || (BRINQA_PASSWORD cfg =? ""));
    [intros [= <- <- <-]; now left|].
  cbn [send sent].
  destruct (login_reply remote _) as [[response|st rm m] dt];
    intros [= <- <- <-]; now right.
Qed.

Lemma getAuthHeaders_log cfg remote c w r c1 w1 :
  getAuthHeaders cfg remote c w = (r, c1, w1) ->
  graphql_posts w1 = graphql_posts w.
Proof.
  unfold getAuthHeaders.
  destruct (authenticate cfg remote c w) as [[[u|e] c0] w0] eqn:A;
    intros [= <- <- <-];
    destruct (authenticate_log _ _ _ _ _ _ _ A) as [E|E];
    unfold graphql_posts; rewrite E; reflexivity.
Qed.

(** X2: with an API key configured [getAuthHeaders] succeeds from any client
    state without touching the network, username and password being set or
    not, and leaves a session that is valid. *)
Theorem api_key_needs_no_network cfg remote c w :
  BRINQA_API_KEY cfg <> "" ->
  exists h c1,
    getAuthHeaders cfg remote c w = (Return h, c1, w)
    /\ session_valid c1 w = true.
Proof.
  intros Hkey. unfold getAuthHeaders, authenticate.
  destruct (truthy (accessToken c) && (now w <? tokenExpiry c)%Z) eqn:V.
  - eexists. exists c. split; [reflexivity|exact V].
  - rewrite (eqb_empty_false _ Hkey). cbn [negb].
    eexists. eexists. split; [reflexivity|].
    unfold session_valid. cbn [accessToken tokenExpiry truthy].
    rewrite (eqb_empty_false _ Hkey). cbn [negb andb].
    apply Z.ltb_lt. lia.
Qed.

Lemma api_key_needs_no_network_witness :
  exists h c1,
    getAuthHeaders cfg_api_key remote_login_refused newClient world0
      = (Return h, c1, world0)
    /\ session_valid c1 world0 = true.
Proof.
  apply (api_key_needs_no_network cfg_api_key remote_login_refused newClient world0).
  discriminate.
Defined.

(** X3: without a valid session, without an API key and with the username or
    the password missing, [authenticate] throws the configuration message
    and sends nothing; the client is left as it was. *)
Theorem authenticate_without_credentials cfg remote c w :
  session_valid c w = false ->
  BRINQA_API_KEY cfg = "" ->
  BRINQA_USERNAME cfg = "" \/ BRINQA_PASSWORD cfg = "" ->
  authenticate cfg remote c w =
    (Throw "Authentication credentials not configured. Set BRINQA_USERNAME and BRINQA_PASSWORD or BRINQA_API_KEY.",
     c, w).
Proof.
  intros V K UP. unfold session_valid in V. unfold authenticate.
  rewrite V, K. cbn [String.eqb negb].
  assert (E : (BRINQA_USERNAME cfg =? "") || (BRINQA_PASSWORD cfg =? "") = true).
  { destruct UP as [-> | ->]; [reflexivity|apply orb_true_r]. }
  now rewrite E.
Qed.

Lemma authenticate_without_credentials_witness :
  authenticate
    {| BRINQA_API_KEY := ""; BRINQA_USERNAME := "analyst"; BRINQA_PASSWORD := "" |}
    remote_ok newClient world0 =
    (Throw "Authentication credentials not configured. Set BRINQA_USERNAME and BRINQA_PASSWORD or BRINQA_API_KEY.",
     newClient, world0).
Proof.
  apply authenticate_without_credentials.
  - reflexivity.
  - reflexivity.
  - right. reflexivity.
Defined.

(** X4: a login that axios rejects makes [authenticate] throw
    [Authentication failed:] with the message of the response body when it
    has one, else the transport message; one login request was sent and the
    client keeps the state it had. *)
Theorem authenticate_login_failure cfg remote c w status remote_message message dt :
  session_valid c w = false ->
  BRINQA_API_KEY cfg = "" ->
  BRINQA_USERNAME cfg <> "" -> BRINQA_PASSWORD cfg <> "" ->
  login_reply remote
    (PostLogin (BRINQA_USERNAME cfg) (BRINQA_PASSWORD cfg) :: sent w)
    = (AxiosError status remote_message message, dt) ->
  exists text,
    authenticate cfg remote c w =
      (Throw ("Authentication failed: " ++ text), c,
       {| now := now w + dt;
          sent := PostLogin (BRINQA_USERNAME cfg) (BRINQA_PASSWORD cfg) :: sent w |})
    /\ (forall r, remote_message = Some r -> r <> "" -> text = r)
    /\ (remote_message = None \/ remote_message = Some "" -> text = message).
Proof.
  intros V K U P R. unfold session_valid in V. unfold authenticate.
  rewrite V, K, (eqb_empty_false _ U), (eqb_empty_false _ P).
  cbn [String.eqb negb orb send sent]. rewrite R.
  exists (error_message remote_message message).
  split; [reflexivity|]. unfold error_message, or_str. split.
  - intros r -> Hr. now rewrite (eqb_empty_false _ Hr).
  - intros [-> | ->]; reflexivity.
Qed.

Lemma authenticate_login_failure_witness :
  exists text,
    authenticate cfg_password remote_login_refused newClient world0 =
      (Throw ("Authentication failed: " ++ text), newClient,
       {| now := now world0 + 30;
          sent := PostLogin "analyst" "hunter2" :: sent world0 |})
    /\ (forall r, Some "Invalid credentials" = Some r -> r <> "" -> text = r)
    /\ (Some "Invalid credentials" = None \/ Some "Invalid credentials" = Some "" ->
        text = "Request failed with status code 403").
Proof.
  refine (authenticate_login_failure cfg_password remote_login_refused
            newClient world0 (Some 403) (Some "Invalid credentials")
            "Request failed with status code 403" 30 eq_refl eq_refl _ _ eq_refl).
  - discriminate.
  - discriminate.
Defined.

(** X5: a session obtained by login is reused until its expiry: after a login
    that yields a non-empty token living [expires_in] seconds, every call of
    [getAuthHeaders] made less than [expires_in - 300] seconds after the
    reply answers with that token and sends nothing. *)
Theorem login_session_is_reused cfg remote c w response dt :
  session_valid c w = false ->
  BRINQA_API_KEY cfg = "" ->
  BRINQA_USERNAME cfg <> "" -> BRINQA_PASSWORD cfg <> "" ->
  login_reply remote
    (PostLogin (BRINQA_USERNAME cfg) (BRINQA_PASSWORD cfg) :: sent w)
    = (Resolved response, dt) ->
  access_token response <> "" ->
  exists c1 w1,
    getAuthHeaders cfg remote c w
      = (Return (headers_of (access_token response)), c1, w1)
    /\ forall w2,
         now w2 < now w1 + seconds (expires_in response - 300) ->
         getAuthHeaders cfg remote c1 w2
           = (Return (headers_of (access_token response)), c1, w2).
Proof.
  intros V K U P R T. unfold session_valid in V.
  unfold getAuthHeaders at 1. unfold authenticate.
  rewrite V, K, (eqb_empty_false _ U), (eqb_empty_false _ P).
  cbn [String.eqb negb orb send sent]. rewrite R.
  eexists. eexists. split; [reflexivity|].
  intros w2 H2. unfold getAuthHeaders.
  rewrite authenticate_valid; [reflexivity|].
  unfold session_valid. cbn [accessToken tokenExpiry truthy].
  rewrite (eqb_empty_false _ T). cbn [negb andb].
  apply Z.ltb_lt. exact H2.
Qed.

Lemma login_session_is_reused_witness :
  exists c1 w1,
    getAuthHeaders cfg_password remote_ok newClient world0
      = (Return (headers_of "jwt"), c1, w1)
    /\ forall w2,
         now w2 < now w1 + seconds (86400 - 300) ->
         getAuthHeaders cfg_password remote_ok c1 w2
           = (Return (headers_of "jwt"), c1, w2).
Proof.
  refine (login_session_is_reused cfg_password remote_ok newClient world0
            {| access_token := "jwt"; token_type := "Bearer"; expires_in := 86400 |}
            40 eq_refl eq_refl _ _ eq_refl _); discriminate.
Defined.

(** X6: a token that lives 300 seconds or less is stale the moment it is
    stored: the next call of [getAuthHeaders], at that instant or later,
    sends a login request again. *)
Theorem short_lived_token_is_not_reused cfg remote c w response dt :
  session_valid c w = false ->
  BRINQA_API_KEY cfg = "" ->
  BRINQA_USERNAME cfg <> "" -> BRINQA_PASSWORD cfg <> "" ->
  login_reply remote
    (PostLogin (BRINQA_USERNAME cfg) (BRINQA_PASSWORD cfg) :: sent w)
    = (Resolved response, dt) ->
  expires_in response <= 300 ->
  exists h c1 w1,
    getAuthHeaders cfg remote c w = (Return h, c1, w1)
    /\ forall w2,
         now w1 <= now w2 ->
         exists r c2 w3,
           getAuthHeaders cfg remote c1 w2 = (r, c2, w3)
           /\ sent w3
              = PostLogin (BRINQA_USERNAME cfg) (BRINQA_PASSWORD cfg) :: sent w2.
Proof.
  intros V K U P R L. unfold session_valid in V.
  unfold getAuthHeaders at 1. unfold authenticate.
  rewrite V, K, (eqb_empty_false _ U), (eqb_empty_false _ P).
  cbn [String.eqb negb orb send sent]. rewrite R.
  eexists. eexists. eexists. split; [reflexivity|].
  intros w2 H2. unfold getAuthHeaders, authenticate.
  cbn [accessToken tokenExpiry elapse now send] in *.
  assert (S : (now w2 <? now w + dt + (expires_in response - 300) * 1000)%Z = false).
  { apply Z.ltb_ge. nia. }
  rewrite S, andb_false_r, K, (eqb_empty_false _ U), (eqb_empty_false _ P).
  cbn [String.eqb negb orb send sent].
  destruct (login_reply remote (_ :: sent w2)) as [[response2|st rm m] dt2];
    eexists; eexists; eexists; split; reflexivity.
Qed.

Lemma short_lived_token_is_not_reused_witness :
  exists h c1 w1,
    getAuthHeaders cfg_password (remote_with_lifetime 300) newClient world0
      = (Return h, c1, w1)
    /\ forall w2,
         now w1 <= now w2 ->
         exists r c2 w3,
           getAuthHeaders cfg_password (remote_with_lifetime 300) c1 w2 = (r, c2, w3)
           /\ sent w3 = PostLogin "analyst" "hunter2" :: sent w2.
Proof.
  refine (short_lived_token_is_not_reused cfg_password (remote_with_lifetime 300)
            newClient world0
            {| access_token := "jwt"; token_type := "Bearer"; expires_in := 300 |}
            40 eq_refl eq_refl _ _ eq_refl _).
  - discriminate.
  - discriminate.
  - cbn. lia.
Defined.

(** ** The request executor seen from the handler *)

Lemma not_401_branch {A : Type} (status : option Z) (X Y : A) :
  status <> Some 401 ->
  match status with Some 401 => X | _ => Y end = Y.
Proof.
  intros H. destruct status as [[|p|p]|]; try reflexivity.
  destruct (Pos.eq_dec p 401) as [->|Hp]; [congruence|].
  clear H. repeat (destruct p as [p|p|]; try reflexivity); congruence.
Qed.

Lemma dispatch_graphql cfg remote fuel call query variables c w :
  graphql_document call = Some (query, variables) ->
  dispatch cfg remote fuel call c w = executeGraphQL cfg remote fuel query variables c w.
Proof. destruct call; intros [= <- <-] || discriminate; reflexivity. Qed.

(** X7: for every tool that goes to the GraphQL endpoint: a response that
    lists errors is reported as [Error: GraphQL errors:] with the messages
    joined by ["; "], whether or not the response also carries data; the
    query was posted once and the session is kept. *)
Theorem graphql_errors_are_reported
    cfg remote fuel call query variables c w h c1 w1 response e es dt :
  graphql_document call = Some (query, variables) ->
  getAuthHeaders cfg remote c w = (Return h, c1, w1) ->
  graphql_reply remote (PostGraphQL h query variables :: sent w1)
    = (Resolved response, dt) ->
  errors response = Some (e :: es) ->
  callTool cfg remote (S fuel) call c w =
    Some ({| text := "Error: GraphQL errors: " ++ join (e :: es) "; ";
             isError := true |},
          c1,
          {| now := now w1 + dt;
             sent := PostGraphQL h query variables :: sent w1 |}).
Proof.
  intros D A R E. unfold callTool. rewrite (dispatch_graphql _ _ _ _ _ _ _ _ D).
  cbn [executeGraphQL]. rewrite A. cbn [send sent]. rewrite R, E. reflexivity.
Qed.

Lemma graphql_errors_are_reported_witness :
  exists c1 w',
    callTool cfg_api_key
      (remote_answering
         (Resolved {| data := Some "{}"; errors := Some ["unknown field"; "bad type"] |})
         (Resolved "{}"))
      1 (query_tickets tickets_by_status) newClient world0
    = Some ({| text := "Error: GraphQL errors: unknown field; bad type";
               isError := true |}, c1, w').
Proof.
  eexists. eexists.
  refine (graphql_errors_are_reported cfg_api_key
            (remote_answering
               (Resolved {| data := Some "{}";
                            errors := Some ["unknown field"; "bad type"] |})
               (Resolved "{}")) 0
            (query_tickets tickets_by_status) _ _ newClient world0 _ _ _
            {| data := Some "{}"; errors := Some ["unknown field"; "bad type"] |}
            "unknown field" ["bad type"] 25 eq_refl eq_refl eq_refl eq_refl).
Defined.

(** X9: for every tool that goes to the GraphQL endpoint: a response with
    neither errors nor data is reported as [No data returned from GraphQL
    query]. *)
Theorem graphql_missing_data_is_reported
    cfg remote fuel call query variables c w h c1 w1 response dt :
  graphql_document call = Some (query, variables) ->
  getAuthHeaders cfg remote c w = (Return h, c1, w1) ->
  graphql_reply remote (PostGraphQL h query variables :: sent w1)
    = (Resolved response, dt) ->
  errors response = None \/ errors response = Some [] ->
  data response = None ->
  callTool cfg remote (S fuel) call c w =
    Some ({| text := "Error: No data returned from GraphQL query"; isError := true |},
          c1,
          {| now := now w1 + dt;
             sent := PostGraphQL h query variables :: sent w1 |}).
Proof.
  intros D A R E P. unfold callTool. rewrite (dispatch_graphql _ _ _ _ _ _ _ _ D).
  cbn [executeGraphQL]. rewrite A. cbn [send sent]. rewrite R.
  destruct E as [-> | ->]; rewrite P; reflexivity.
Qed.

Lemma graphql_missing_data_is_reported_witness :
  exists c1 w',
    callTool cfg_api_key
      (remote_answering (Resolved {| data := None; errors := None |}) (Resolved "{}"))
      1 (query_tickets tickets_by_status) newClient world0
    = Some ({| text := "Error: No data returned from GraphQL query";
               isError := true |}, c1, w').
Proof.
  eexists. eexists.
  refine (graphql_missing_data_is_reported cfg_api_key
            (remote_answering (Resolved {| data := None; errors := None |})
               (Resolved "{}")) 0
            (query_tickets tickets_by_status) _ _ newClient world0 _ _ _
            {| data := None; errors := None |}
            25 eq_refl eq_refl eq_refl _ eq_refl).
  left. reflexivity.
Defined.

(** X10: for every tool that goes to the GraphQL endpoint: a failure of the post
    with any status but 401, or with none, is reported as [GraphQL request
    failed:] with the message of the response body or else the transport
    message; the post is not repeated and the session is not cleared. *)
Theorem graphql_failure_is_not_retried
    cfg remote fuel call query variables c w h c1 w1 status remote_message message dt :
  graphql_document call = Some (query, variables) ->
  getAuthHeaders cfg remote c w = (Return h, c1, w1) ->
  graphql_reply remote (PostGraphQL h query variables :: sent w1)
    = (AxiosError status remote_message message, dt) ->
  status <> Some 401 ->
  callTool cfg remote (S fuel) call c w =
    Some ({| text := "Error: GraphQL request failed: "
                     ++ or_str remote_message message;
             isError := true |},
          c1,
          {| now := now w1 + dt;
             sent := PostGraphQL h query variables :: sent w1 |}).
Proof.
  intros D A R N. unfold callTool. rewrite (dispatch_graphql _ _ _ _ _ _ _ _ D).
  cbn [executeGraphQL]. rewrite A. cbn [send sent]. rewrite R.
  rewrite (not_401_branch status _ _ N). reflexivity.
Qed.

Lemma graphql_failure_is_not_retried_witness :
  exists c1 w',
    callTool cfg_api_key
      (remote_answering
         (AxiosError (Some 403) (Some "Forbidden for this role")
            "Request failed with status code 403")
         (Resolved "{}"))
      1 (query_tickets tickets_by_status) newClient world0
    = Some ({| text := "Error: GraphQL request failed: Forbidden for this role";
               isError := true |}, c1, w')
    /\ graphql_posts w' = 1%nat
    /\ accessToken c1 = Some "secret-key".
Proof.
  eexists. eexists. split.
  - refine (graphql_failure_is_not_retried cfg_api_key
              (remote_answering
                 (AxiosError (Some 403) (Some "Forbidden for this role")
                    "Request failed with status code 403")
                 (Resolved "{}")) 0
              (query_tickets tickets_by_status) _ _ newClient world0 _ _ _
              (Some 403) (Some "Forbidden for this role")
              "Request failed with status code 403" 25
              eq_refl eq_refl eq_refl _).
    discriminate.
  - split; reflexivity.
Defined.

(** X11: for every tool that goes to the GraphQL endpoint: when authentication
    throws, the handler reports that error and the query is never posted. *)
Theorem authentication_failure_sends_no_query
    cfg remote fuel call query variables c w e c1 w1 :
  graphql_document call = Some (query, variables) ->
  getAuthHeaders cfg remote c w = (Throw e, c1, w1) ->
  callTool cfg remote (S fuel) call c w =
    Some ({| text := "Error: " ++ e; isError := true |}, c1, w1)
  /\ graphql_posts w1 = graphql_posts w.
Proof.
  intros D A. split.
  - unfold callTool. rewrite (dispatch_graphql _ _ _ _ _ _ _ _ D).
    cbn [executeGraphQL]. rewrite A. reflexivity.
  - exact (getAuthHeaders_log _ _ _ _ _ _ _ A).
Qed.

Lemma authentication_failure_sends_no_query_witness :
  exists c1 w1,
    callTool cfg_password remote_login_refused 1
      (query_tickets tickets_by_status) newClient world0
    = Some ({| text := "Error: Authentication failed: Invalid credentials";
               isError := true |}, c1, w1)
    /\ graphql_posts w1 = graphql_posts world0.
Proof.
  eexists. eexists.
  refine (authentication_failure_sends_no_query cfg_password remote_login_refused 0
            (query_tickets tickets_by_status) _ _ newClient world0
            "Authentication failed: Invalid credentials" _ _ eq_refl eq_refl).
Defined.

(** ** The request executor: what the 401 branch does *)

Lemma unauthorized_first_step (n : nat) (fuel : nat) query variables c w :
  truthy (accessToken c) = false ->
  let posts := List.length (List.filter is_graphql (sent w)) in
  executeGraphQL cfg_password (remote_unauthorized_first n) (S fuel) query variables c w
  = if (S posts <=? n)%nat
    then executeGraphQL cfg_password (remote_unauthorized_first n) fuel query variables
           {| accessToken := None; tokenExpiry := 0 |}
           {| now := now w + 40 + 25;
              sent := PostGraphQL (headers_of "jwt") query variables
                      :: PostLogin "analyst" "hunter2" :: sent w |}
    else Some (Return "{}",
               {| accessToken := Some "jwt";
                  tokenExpiry := now w + 40 + (86400 - 300) * 1000 |},
               {| now := now w + 40 + 25;
                  sent := PostGraphQL (headers_of "jwt") query variables
                          :: PostLogin "analyst" "hunter2" :: sent w |}).
Proof.
  intros T posts. cbn [executeGraphQL]. unfold getAuthHeaders, authenticate.
  rewrite T. cbn [andb].
  change (negb (BRINQA_API_KEY cfg_password =? "")) with false.
  change ((BRINQA_USERNAME cfg_password =? "") || (BRINQA_PASSWORD cfg_password =? ""))
    with false.
  cbv iota.
  change (login_reply (remote_unauthorized_first n) _) with login_ok.
  unfold login_ok. cbv iota beta.
  cbn [send sent elapse now accessToken bearer access_token expires_in].
  unfold remote_unauthorized_first at 1. cbn [graphql_reply].
  cbn [List.filter is_graphql List.length]. fold posts.
  destruct (S posts <=? n)%nat; reflexivity.
Qed.

Lemma unauthorized_first_run (n : nat) query variables :
  forall fuel c w,
    truthy (accessToken c) = false ->
    let posts := List.length (List.filter is_graphql (sent w)) in
    (posts <= n)%nat ->
    ((fuel <= n - posts)%nat ->
     executeGraphQL cfg_password (remote_unauthorized_first n) fuel query variables c w
     = None)
    /\ ((n - posts < fuel)%nat ->
        exists c' w',
          executeGraphQL cfg_password (remote_unauthorized_first n) fuel
            query variables c w = Some (Return "{}", c', w')
          /\ graphql_posts w' = S n
          /\ login_posts w' = (login_posts w + S (n - posts))%nat).
Proof.
  induction fuel as [|fuel IH]; intros c w T posts Hp.
  - split; [reflexivity|lia].
  - rewrite (unauthorized_first_step n fuel query variables c w T). fold posts.
    destruct (Nat.leb_spec (S posts) n) as [Hle|Hgt].
    + specialize (IH {| accessToken := None; tokenExpiry := 0 |}
                     {| now := now w + 40 + 25;
                        sent := PostGraphQL (headers_of "jwt") query variables
                                :: PostLogin "analyst" "hunter2" :: sent w |}
                     eq_refl).
      cbn [sent List.filter is_graphql List.length] in IH. fold posts in IH.
      destruct (IH Hle) as [IH1 IH2]. split.
      * intros Hf. apply IH1. lia.
      * intros Hf. destruct IH2 as (c' & w' & E & G & L); [lia|].
        exists c', w'. split; [exact E|]. split; [exact G|].
        rewrite L. unfold login_posts.
        cbn [sent List.filter is_login List.length]. lia.
    + split; [lia|]. intros _. eexists. eexists. split; [reflexivity|].
      unfold graphql_posts, login_posts.
      cbn [sent List.filter is_graphql is_login List.length]. fold posts.
      split; lia.
Qed.

(** X12: the 401 branch repeats the request as often as it is answered 401: a
    service that rejects the first [n] posts makes one call post [n + 1]
    times and log in [n + 1] times before the payload is returned, for every
    [n]; no call depth short of that lets the call return. *)
Theorem retries_have_no_bound (n fuel : nat) query variables :
  ((fuel <= n)%nat ->
   executeGraphQL cfg_password (remote_unauthorized_first n) fuel
     query variables newClient world0 = None)
  /\ ((n < fuel)%nat ->
      exists c w,
        executeGraphQL cfg_password (remote_unauthorized_first n) fuel
          query variables newClient world0 = Some (Return "{}", c, w)
        /\ graphql_posts w = S n
        /\ login_posts w = S n).
Proof.
  destruct (unauthorized_first_run n query variables fuel newClient world0 eq_refl)
    as [H1 H2]; [cbn; lia|].
  cbn [world0 sent List.filter List.length] in H1, H2.
  rewrite Nat.sub_0_r in H1, H2. split; [exact H1|].
  intros Hf. destruct (H2 Hf) as (c & w & E & G & L).
  exists c, w. split; [exact E|]. split; [exact G|exact L].
Qed.

Lemma retries_have_no_bound_witness :
  executeGraphQL cfg_password (remote_unauthorized_first 7) 7
    (Some "{ assets { totalCount } }") None newClient world0 = None
  /\ exists c w,
       executeGraphQL cfg_password (remote_unauthorized_first 7) 8
         (Some "{ assets { totalCount } }") None newClient world0
         = Some (Return "{}", c, w)
       /\ graphql_posts w = 8%nat
       /\ login_posts w = 8%nat.
Proof.
  split.
  - apply (proj1 (retries_have_no_bound 7 7 (Some "{ assets { totalCount } }") None)).
    apply le_n.
  - apply (proj2 (retries_have_no_bound 7 8 (Some "{ assets { totalCount } }") None)).
    apply le_n.
Defined.

(** X13: with an API key configured, the retry after a 401 cannot differ from
    the attempt before it: every post of a call that starts without a valid
    session carries the same headers, query and variables, and the call ends
    with the key as the token held. *)
Theorem api_key_retry_repeats_the_request
    cfg remote fuel query variables c w r c' w' :
  BRINQA_API_KEY cfg <> "" ->
  session_valid c w = false ->
  executeGraphQL cfg remote fuel query variables c w = Some (r, c', w') ->
  exists log,
    log <> []
    /\ sent w' = (log ++ sent w)%list
    /\ Forall (fun x => x = PostGraphQL (headers_of (BRINQA_API_KEY cfg))
                             query variables) log
    /\ accessToken c' = Some (BRINQA_API_KEY cfg).
Proof.
  intros Hkey. revert c w.
  induction fuel as [|fuel IH]; intros c w V; [discriminate|].
  unfold session_valid in V.
  cbn [executeGraphQL]. unfold getAuthHeaders, authenticate.
  rewrite V, (eqb_empty_false _ Hkey). cbn [negb send sent accessToken bearer].
  change {| Authorization := "Bearer " ++ BRINQA_API_KEY cfg;
            Content_Type := "application/json";
            Accept := "application/json";
            X_API_KEY := None |} with (headers_of (BRINQA_API_KEY cfg)).
  set (post := PostGraphQL (headers_of (BRINQA_API_KEY cfg)) query variables).
  assert (One : forall x,
             sent x = post :: sent w ->
             exists log, log <> [] /\ sent x = (log ++ sent w)%list
                         /\ Forall (fun y => y = post) log).
  { intros x Hx. exists [post]. split; [discriminate|]. split; [exact Hx|].
    constructor; [reflexivity|constructor]. }
  destruct (graphql_reply remote _) as [[response|status rm m] dt].
  - destruct (errors response) as [[|e es]|]; destruct (data response);
      intros [= <- <- <-];
      destruct (One (elapse dt (send post w)) eq_refl) as (log & L1 & L2 & L3);
      exists log; repeat split; assumption.
  - assert (Dec : status = Some 401 \/ status <> Some 401).
    { destruct status as [z|]; [|right; discriminate].
      destruct (Z.eq_dec z 401) as [->|Hz]; [now left|right; congruence]. }
    destruct Dec as [->|N].
    + intros H.
      destruct (IH {| accessToken := None; tokenExpiry := 0 |} _ eq_refl H)
        as (log & L1 & L2 & L3 & L4).
      cbn [elapse sent] in L2.
      exists (log ++ [post])%list. split; [now destruct log|].
      split; [rewrite L2, <- app_assoc; reflexivity|].
      split; [|exact L4].
      apply Forall_app. split; [exact L3|]. constructor; [reflexivity|constructor].
    + rewrite (not_401_branch status _ _ N). intros [= <- <- <-].
      destruct (One (elapse dt (send post w)) eq_refl) as (log & L1 & L2 & L3).
      exists log. repeat split; assumption.
Qed.

Lemma api_key_retry_repeats_the_request_witness :
  exists log,
    log <> []
    /\ (exists c' w', 
          executeGraphQL cfg_api_key (remote_unauthorized_first 2) 3
            (Some "{ assets { totalCount } }") None newClient world0
            = Some (Return "{}", c', w')
          /\ sent w' = (log ++ sent world0)%list
          /\ accessToken c' = Some "secret-key")
    /\ Forall (fun x => x = PostGraphQL (headers_of "secret-key")
                             (Some "{ assets { totalCount } }") None) log.
Proof.
  destruct (executeGraphQL cfg_api_key (remote_unauthorized_first 2) 3
              (Some "{ assets { totalCount } }") None newClient world0)
    as [[[r c'] w']|] eqn:E; [|discriminate E].
  destruct (api_key_retry_repeats_the_request cfg_api_key
              (remote_unauthorized_first 2) 3
              (Some "{ assets { totalCount } }") None newClient world0 r c' w')
    as (log & L1 & L2 & L3 & L4).
  - discriminate.
  - reflexivity.
  - exact E.
  - exists log. split; [exact L1|]. split; [|exact L3].
    exists c', w'. split; [|split; assumption].
    vm_compute in E. injection E as <- <- <-. reflexivity.
Defined.

(** ** The ingestion path *)

(** X14: [connect_ingest_data] sends one [POST] to [/connect/ingest] whose body is
    the namespace, data type and records as given, an empty list of records
    included; the headers are those of [getAuthHeaders], with [X-API-KEY]
    added exactly when an API key is configured. *)
Theorem ingest_request_is_sent_as_given
    cfg remote fuel ns data_type recs c w h c1 w1 :
  getAuthHeaders cfg remote c w = (Return h, c1, w1) ->
  exists res w',
    callTool cfg remote fuel (connect_ingest_data ns data_type recs) c w
      = Some (res, c1, w')
    /\ sent w' =
         ConnectRequest "POST" "/connect/ingest"
           {| Authorization := Authorization h;
              Content_Type := Content_Type h;
              Accept := Accept h;
              X_API_KEY := if BRINQA_API_KEY cfg =? ""
                           then X_API_KEY h
                           else Some (BRINQA_API_KEY cfg) |}
           (Some {| namespace := ns; dataType := data_type; records := recs |})
         :: sent w1.
Proof.
  intros A. unfold callTool, dispatch, connectApiRequest. rewrite A.
  destruct (BRINQA_API_KEY cfg =? "") eqn:K; cbn [negb send sent];
    destruct h as [au ct ac xk]; cbn [Authorization Content_Type Accept X_API_KEY];
    destruct (connect_reply remote _) as [[body|st rm m] dt];
    eexists; eexists; split; reflexivity.
Qed.

Lemma ingest_request_is_sent_as_given_witness :
  exists res w',
    callTool cfg_api_key remote_ok 0
      (connect_ingest_data "production" "asset" []) newClient world0
      = Some (res, {| accessToken := Some "secret-key";
                      tokenExpiry := 1700000000000 + hours 24 |}, w')
    /\ sent w' =
         [ConnectRequest "POST" "/connect/ingest"
            {| Authorization := "Bearer secret-key";
               Content_Type := "application/json";
               Accept := "application/json";
               X_API_KEY := Some "secret-key" |}
            (Some {| namespace := "production"; dataType := "asset"; records := [] |})].
Proof.
  exact (ingest_request_is_sent_as_given cfg_api_key remote_ok 0
           "production" "asset" [] newClient world0 _ _ world0 eq_refl).
Defined.

(** X15: the ingestion path has no retry: a failure of the request, a 401
    included, is reported as [Brinqa Connect API request failed:] after one
    request, and the session is not cleared. *)
Theorem ingest_failure_is_not_retried
    cfg remote fuel ns data_type recs c w h c1 w1 req status remote_message message dt :
  getAuthHeaders cfg remote c w = (Return h, c1, w1) ->
  req = ConnectRequest "POST" "/connect/ingest"
          {| Authorization := Authorization h;
             Content_Type := Content_Type h;
             Accept := Accept h;
             X_API_KEY := if BRINQA_API_KEY cfg =? ""
                          then X_API_KEY h
                          else Some (BRINQA_API_KEY cfg) |}
          (Some {| namespace := ns; dataType := data_type; records := recs |}) ->
  connect_reply remote (req :: sent w1)
    = (AxiosError status remote_message message, dt) ->
  callTool cfg remote fuel (connect_ingest_data ns data_type recs) c w =
    Some ({| text := "Error: Brinqa Connect API request failed: "
                     ++ or_str remote_message message;
             isError := true |},
          c1,
          {| now := now w1 + dt; sent := req :: sent w1 |}).
Proof.
  intros A -> R. unfold callTool, dispatch, connectApiRequest. rewrite A.
  change ("/connect" ++ "/ingest") with "/connect/ingest".
  revert R. destruct (BRINQA_API_KEY cfg =? "") eqn:K; cbn [negb send sent];
    destruct h as [au ct ac xk]; cbn [Authorization Content_Type Accept X_API_KEY];
    intros ->; reflexivity.
Qed.

Lemma ingest_failure_is_not_retried_witness :
  exists w',
    callTool cfg_api_key
      (remote_answering (Resolved {| data := None; errors := None |})
         (AxiosError (Some 401) None "Request failed with status code 401"))
      0 (connect_ingest_data "production" "asset" ["{}"]) newClient world0
    = Some ({| text := "Error: Brinqa Connect API request failed: Request failed with status code 401";
               isError := true |},
            {| accessToken := Some "secret-key";
               tokenExpiry := 1700000000000 + hours 24 |}, w')
    /\ List.length (sent w') = 1%nat.
Proof.
  eexists. split.
  - refine (ingest_failure_is_not_retried cfg_api_key
              (remote_answering (Resolved {| data := None; errors := None |})
                 (AxiosError (Some 401) None "Request failed with status code 401"))
              0 "production" "asset" ["{}"] newClient world0 _ _ world0 _
              (Some 401) None "Request failed with status code 401" 25
              eq_refl eq_refl eq_refl).
  - reflexivity.
Defined.

(** ** The query builders: further properties *)

(** X17: a data-model document is the lookup of one model when [model_name] is
    a non-empty string, and the list of all models when it is undefined or
    empty. *)
Theorem buildDataModelsQuery_shape (p : DataModels.params) :
  let doc := DataModels.buildDataModelsQuery p in
  (forall name,
     DataModels.model_name p = Some name -> name <> "" ->
     single_model_shape doc name = true /\ all_models_shape doc = false)
  /\
  (DataModels.model_name p = None \/ DataModels.model_name p = Some "" ->
   all_models_shape doc = true /\ forall name, single_model_shape doc name = false).
Proof.
  cbv zeta. unfold DataModels.buildDataModelsQuery. split.
  - intros name Hn Hne. rewrite Hn. cbn [truthy interp].
    rewrite (eqb_empty_false _ Hne). cbn [negb].
    split; [|reflexivity].
    unfold single_model_shape.
    rewrite (startsWith_app_same _ _ (dq ++ name ++ dq ++ ") {")).
    rewrite (startsWith_app_same dq).
    rewrite (startsWith_app_same name).
    rewrite (startsWith_app_same dq).
    reflexivity.
  - intros [-> | ->]; cbn [truthy String.eqb negb];
      (split; [reflexivity|intros name; reflexivity]).
Qed.

Lemma buildDataModelsQuery_shape_witness :
  (single_model_shape
     (DataModels.buildDataModelsQuery (DataModels.Build_params (Some "Host") None None))
     "Host" = true
   /\ all_models_shape
        (DataModels.buildDataModelsQuery (DataModels.Build_params (Some "Host") None None))
      = false)
  /\ (all_models_shape
        (DataModels.buildDataModelsQuery (DataModels.Build_params (Some "") None None))
      = true
      /\ forall name,
           single_model_shape
             (DataModels.buildDataModelsQuery
                (DataModels.Build_params (Some "") None None)) name
           = false).
Proof.
  split.
  - apply (proj1 (buildDataModelsQuery_shape
                    (DataModels.Build_params (Some "Host") None None)) "Host").
    + reflexivity.
    + discriminate.
  - apply (proj2 (buildDataModelsQuery_shape
                    (DataModels.Build_params (Some "") None None))).
    right. reflexivity.
Defined.

(** X18: outside the asset lookup, [scope] and [entity_id] leave no mark on a
    risk-score document: for a scope other than ["ASSET"], or without a
    non-empty [entity_id], the document is the one built from the two
    inclusion flags alone. *)
Theorem buildRiskScoresQuery_ignores_other_scopes (p : RiskScores.params) :
  RiskScores.scope p <> Some "ASSET"
  \/ RiskScores.entity_id p = None
  \/ RiskScores.entity_id p = Some "" ->
  RiskScores.buildRiskScoresQuery p
  = RiskScores.buildRiskScoresQuery
      (RiskScores.Build_params None None
         (RiskScores.include_factors p) (RiskScores.include_trends p)).
Proof.
  intros H. unfold RiskScores.buildRiskScoresQuery, RiskScores.scope_is_asset.
  cbn [RiskScores.scope RiskScores.entity_id RiskScores.include_factors
       RiskScores.include_trends].
  assert (E : match RiskScores.scope p with
              | Some s => s =? "ASSET"
              | None => false
              end && truthy (RiskScores.entity_id p) = false).
  { destruct H as [H|[H|H]].
    - destruct (RiskScores.scope p) as [s|]; [|reflexivity].
      destruct (String.eqb_spec s "ASSET") as [->|_]; [congruence|reflexivity].
    - rewrite H. apply andb_false_r.
    - rewrite H. apply andb_false_r. }
  rewrite E. reflexivity.
Qed.

Lemma buildRiskScoresQuery_ignores_other_scopes_witness :
  RiskScores.buildRiskScoresQuery risk_of_application
  = RiskScores.buildRiskScoresQuery
      (RiskScores.Build_params None None (Some true) None).
Proof.
  apply (buildRiskScoresQuery_ignores_other_scopes risk_of_application).
  left. discriminate.
Defined.

Ltac by_cases_on_filters :=
  repeat match goal with
    | |- context [truthy ?o] => destruct (truthy o)
    | |- context [truthy_num ?o] => destruct (truthy_num o)
    | |- context [@defined ?A ?o] => destruct (@defined A o)
    end;
  split; reflexivity.

(** X19: the argument list of a document is opened exactly when a filter is in
    force: each builder writes the parenthesis right after the resource when
    at least one of its filter tests succeeds, and goes straight to the
    selection set, with no empty pair of parentheses, when none does. *)
Theorem argument_list_opens_with_filters :
  (forall p,
     let some := truthy (Assets.asset_type p) || truthy (Assets.status p)
                 || truthy (Assets.filter p) in
     startsWith (Assets.buildAssetsQuery p)
       (operation_head "GetAssets" "assets" ++ "(") = some
     /\ startsWith (Assets.buildAssetsQuery p)
          (operation_head "GetAssets" "assets" ++ " {") = negb some)
  /\ (forall p,
     let some := truthy (Vulnerabilities.severity p)
                 || truthy (Vulnerabilities.status p)
                 || truthy (Vulnerabilities.cve_id p)
                 || truthy (Vulnerabilities.filter p) in
     startsWith (Vulnerabilities.buildVulnerabilitiesQuery p)
       (operation_head "GetVulnerabilities" "vulnerabilities" ++ "(") = some
     /\ startsWith (Vulnerabilities.buildVulnerabilitiesQuery p)
          (operation_head "GetVulnerabilities" "vulnerabilities" ++ " {") = negb some)
  /\ (forall p,
     let some := truthy (Findings.finding_type p) || truthy (Findings.status p)
                 || defined (Findings.risk_score_min p)
                 || defined (Findings.risk_score_max p)
                 || truthy_num (Findings.age_days p) in
     startsWith (Findings.buildFindingsQuery p)
       (operation_head "GetFindings" "findings" ++ "(") = some
     /\ startsWith (Findings.buildFindingsQuery p)
          (operation_head "GetFindings" "findings" ++ " {") = negb some)
  /\ (forall p,
     let some := truthy (Tickets.status p) || truthy (Tickets.priority p)
                 || truthy (Tickets.assignee p) || truthy (Tickets.sla_status p) in
     startsWith (Tickets.buildTicketsQuery p)
       (operation_head "GetTickets" "tickets" ++ "(") = some
     /\ startsWith (Tickets.buildTicketsQuery p)
          (operation_head "GetTickets" "tickets" ++ " {") = negb some)
  /\ (forall p,
     let some := truthy (Connectors.connector_type p)
                 || truthy (Connectors.status p) in
     startsWith (Connectors.buildConnectorsQuery p)
       (operation_head "GetConnectors" "connectors" ++ "(") = some
     /\ startsWith (Connectors.buildConnectorsQuery p)
          (operation_head "GetConnectors" "connectors" ++ " {") = negb some)
  /\ (forall p,
     let some := truthy (Clusters.cluster_type p) in
     startsWith (Clusters.buildClustersQuery p)
       (operation_head "GetClusters" "clusters" ++ "(") = some
     /\ startsWith (Clusters.buildClustersQuery p)
          (operation_head "GetClusters" "clusters" ++ " {") = negb some).
Proof.
  repeat apply conj; intros p; cbv zeta.
  - unfold Assets.buildAssetsQuery. by_cases_on_filters.
  - unfold Vulnerabilities.buildVulnerabilitiesQuery. by_cases_on_filters.
  - unfold Findings.buildFindingsQuery. by_cases_on_filters.
  - unfold Tickets.buildTicketsQuery. by_cases_on_filters.
  - unfold Connectors.buildConnectorsQuery. by_cases_on_filters.
  - unfold Clusters.buildClustersQuery. by_cases_on_filters.
Qed.

(** X20: the field selection of an asset query: a list of fields that joins to
    the empty string (no list, the empty list, a list of one empty name)
    gives the document of the default selection, and every field of a list
    that joins to something else stands in the document. *)
Theorem buildAssetsQuery_field_selection a s l f (fs : list string) :
  (join fs field_separator = "" ->
   Assets.buildAssetsQuery (Assets.Build_params a s l f (Some fs))
   = Assets.buildAssetsQuery (Assets.Build_params a s l f None))
  /\ (join fs field_separator <> "" ->
      forall x, In x fs ->
        includes (Assets.buildAssetsQuery (Assets.Build_params a s l f (Some fs))) x
        = true).
Proof.
  unfold field_separator, Assets.buildAssetsQuery.
  cbn [Assets.fields option_map or_str]. split.
  - intros ->. reflexivity.
  - intros H x Hx. rewrite (eqb_empty_false _ H). cbv zeta.
    do 5 apply includes_app_right. apply includes_app_left.
    now apply includes_join_true.
Qed.

Lemma buildAssetsQuery_field_selection_witness :
  Assets.buildAssetsQuery (Assets.Build_params None None None None (Some [""]))
  = Assets.buildAssetsQuery (Assets.Build_params None None None None None)
  /\ includes
       (Assets.buildAssetsQuery
          (Assets.Build_params None None None None (Some ["name"; "ipAddress"])))
       "ipAddress" = true.
Proof.
  split.
  - apply (proj1 (buildAssetsQuery_field_selection None None None None [""])).
    reflexivity.
  - apply (proj2 (buildAssetsQuery_field_selection None None None None
                    ["name"; "ipAddress"])).
    + discriminate.
    + right. left. reflexivity.
Defined.

(** X21: the limit has a ceiling and no floor: a negative limit is written into
    the document as it is. *)
Theorem negative_limit_is_kept (l : Z) :
  l < 0 ->
  (forall a s f fs,
     includes (Assets.buildAssetsQuery (Assets.Build_params a s (Some l) f fs))
       (first_argument l) = true)
  /\ (forall sv s cv f fl,
     includes (Vulnerabilities.buildVulnerabilitiesQuery
                 (Vulnerabilities.Build_params sv s cv (Some l) f fl))
       (first_argument l) = true)
  /\ (forall ft s lo hi ad,
     includes (Findings.buildFindingsQuery
                 (Findings.Build_params ft s lo hi (Some l) ad))
       (first_argument l) = true)
  /\ (forall s pr a sla,
     includes (Tickets.buildTicketsQuery (Tickets.Build_params s pr a sla (Some l)))
       (first_argument l) = true)
  /\ (forall ct,
     includes (Clusters.buildClustersQuery (Clusters.Build_params ct (Some l)))
       (first_argument l) = true).
Proof.
  intros H.
  assert (E : forall d c, 0 < c -> Math_min (or_num (Some l) d) c = l).
  { intros d c Hc. unfold Math_min, or_num.
    destruct (Z.eqb_spec l 0); lia. }
  repeat apply conj; intros.
  - rewrite <- (E 100 1000) at 2 by lia.
    apply (buildAssetsQuery_first (Assets.Build_params a s (Some l) f fs)).
  - rewrite <- (E 100 1000) at 2 by lia.
    apply (buildVulnerabilitiesQuery_first
             (Vulnerabilities.Build_params sv s cv (Some l) f fl)).
  - rewrite <- (E 100 1000) at 2 by lia.
    apply (buildFindingsQuery_first (Findings.Build_params ft s lo hi (Some l) ad)).
  - rewrite <- (E 100 1000) at 2 by lia.
    apply (buildTicketsQuery_first (Tickets.Build_params s pr a sla (Some l))).
  - rewrite <- (E 50 500) at 2 by lia.
    apply (buildClustersQuery_first (Clusters.Build_params ct (Some l))).
Qed.

Lemma negative_limit_is_kept_witness :
  includes (Clusters.buildClustersQuery (clusters_with_limit (Some (-5))))
    "nodes(first: -5)" = true.
Proof.
  assert (H : -5 < 0) by reflexivity.
  exact (proj2 (proj2 (proj2 (proj2 (negative_limit_is_kept (-5) H)))) None).
Defined.

(** ** The constructor *)

(** X22: the constructor takes one slash off the end of the base URL and nothing
    else: a URL that ends with a slash loses that one character, so that of
    two trailing slashes one stays, and any other URL is kept as it is. *)
Theorem constructor_baseUrl_strips_one_slash :
  (forall u, constructor_baseUrl (u ++ "/") = u)
  /\ (forall s, last_char s <> Some "/"%char -> constructor_baseUrl s = s).
Proof.
  split.
  - induction u as [|c u IH]; [reflexivity|].
    change (String c u ++ "/") with (String c (u ++ "/")).
    cbn [constructor_baseUrl]. rewrite IH.
    destruct u; reflexivity.
  - induction s as [|c s IH]; [reflexivity|]. intros H.
    destruct s as [|d s].
    + cbn [constructor_baseUrl]. cbn [last_char] in H.
      destruct (Ascii.eqb_spec c "/") as [->|_]; [congruence|reflexivity].
    + change (constructor_baseUrl (String c (String d s)))
        with (String c (constructor_baseUrl (String d s))).
      rewrite IH; [reflexivity|exact H].
Qed.

Lemma constructor_baseUrl_strips_one_slash_witness :
  constructor_baseUrl "https://acme.brinqa.net//" = "https://acme.brinqa.net/"
  /\ constructor_baseUrl "https://acme.brinqa.net" = "https://acme.brinqa.net".
Proof.
  split.
  - exact (proj1 constructor_baseUrl_strips_one_slash "https://acme.brinqa.net/").
  - apply (proj2 constructor_baseUrl_strips_one_slash). discriminate.
Defined.

(** ** Whole calls under a held session *)

(** X23: with a valid session held, a tool call that goes to the GraphQL
    endpoint and is not answered 401 costs one request, the post itself,
    sent with the held token; no login is made and the client is left as it
    was. *)
Theorem valid_session_call_posts_once
    cfg remote fuel call query variables c w token rep dt :
  accessToken c = Some token -> token <> "" -> now w < tokenExpiry c ->
  graphql_document call = Some (query, variables) ->
  graphql_reply remote (PostGraphQL (headers_of token) query variables :: sent w)
    = (rep, dt) ->
  (forall remote_message message, rep <> AxiosError (Some 401) remote_message message) ->
  exists res,
    callTool cfg remote (S fuel) call c w =
      Some (res, c,
            {| now := now w + dt;
               sent := PostGraphQL (headers_of token) query variables :: sent w |}).
Proof.
  intros T Hne Hnow D R N.
  assert (V : session_valid c w = true).
  { unfold session_valid. rewrite T. cbn [truthy].
    rewrite (eqb_empty_false _ Hne). apply Z.ltb_lt in Hnow. now rewrite Hnow. }
  unfold callTool. rewrite (dispatch_graphql _ _ _ _ _ _ _ _ D).
  cbn [executeGraphQL]. unfold getAuthHeaders.
  rewrite (authenticate_valid _ _ _ _ V).
  unfold bearer. rewrite T.
  change {| Authorization := "Bearer " ++ token;
            Content_Type := "application/json";
            Accept := "application/json";
            X_API_KEY := None |} with (headers_of token).
  cbn [send sent]. rewrite R.
  destruct rep as [response|status rm m].
  - destruct (errors response) as [[|e es]|]; destruct (data response);
      eexists; reflexivity.
  - rewrite not_401_branch; [eexists; reflexivity|].
    intros ->. exact (N rm m eq_refl).
Qed.

Lemma valid_session_call_posts_once_witness :
  let c := {| accessToken := Some "jwt"; tokenExpiry := 1700000000000 + 5000 |} in
  exists res,
    callTool cfg_password remote_ok 1 (query_tickets tickets_by_status) c world0 =
      Some (res, c,
            {| now := now world0 + 25;
               sent := [PostGraphQL (headers_of "jwt")
                          (Some (Tickets.buildTicketsQuery tickets_by_status)) None] |}).
Proof.
  intros c.
  refine (valid_session_call_posts_once cfg_password remote_ok 0
            (query_tickets tickets_by_status) _ _ c world0 "jwt" _ 25
            eq_refl _ eq_refl eq_refl eq_refl _).
  - discriminate.
  - discriminate.
Defined.






